(** * The Diondo projection reader, [readers/DiondoDataReader.py]

    A shallow embedding of the reader class and of the parts of Python,
    NumPy, joblib and the CIL geometry library that it calls, followed by
    the properties of its four methods [_setup_geometry], [set_angles],
    [read] and [read_centre_slice].

    Conventions of the embedding.
    - A Python exception is a value [Raise e] of the error monad [result].
    - Python integers are [Z].  A float64 quantity (an angle, a distance) is
      represented by the rational number it denotes and arithmetic on it is
      exact: binary64 rounding error is outside the model.
    - A NumPy array is its shape together with its elements in row-major
      order; one-dimensional integer arrays (index arrays) are plain lists.
    - The file system is read-only state passed explicitly: [read] and
      [read_centre_slice] receive the entries of [self.projection_path],
      [read_metadata] the content found at [self.xml_file], if any. *)

From Stdlib Require Import String Ascii ZArith QArith Qround Qabs Bool Lia Lqa List.
From Stdlib Require Import Permutation Sorted Orders Mergesort.
From Stdlib Require Import Floats.SpecFloat.
From Stdlib Require Strings.Byte.
Import ListNotations.

Local Open Scope Z_scope.

(** ** Python: exceptions, sequences and slices *)

Inductive exn : Set :=
  | FileNotFoundError
  | IndexError
  | ValueError
  | TypeError
  | OverflowError
  | AttributeError
  | ParseError.

Inductive result (A : Type) : Type :=
  | Ok (a : A)
  | Raise (e : exn).

Arguments Ok {A} a.
Arguments Raise {A} e.

Definition bind {A B : Type} (m : result A) (k : A -> result B) : result B :=
  match m with
  | Ok a => k a
  | Raise e => Raise e
  end.

Notation "x <- m ;; k" := (bind m (fun x => k))
  (at level 61, m at next level, right associativity).

(** A comprehension or loop whose body may raise: the first failure, in
    iteration order, aborts it. *)
Fixpoint mapM {A B : Type} (f : A -> result B) (l : list A) : result (list B) :=
  match l with
  | [] => Ok []
  | x :: l' => y <- f x ;; ys <- mapM f l' ;; Ok (y :: ys)
  end.

(** [l[i]] on a Python list, and on each element of a NumPy index array:
    a negative [i] counts from the end, anything outside [-len, len) is an
    [IndexError]. *)
Definition getitem {A : Type} (l : list A) (i : Z) : result A :=
  let n := Z.of_nat (length l) in
  let j := if i <? 0 then i + n else i in
  if (0 <=? j) && (j <? n) then
    match nth_error l (Z.to_nat j) with
    | Some a => Ok a
    | None => Raise IndexError
    end
  else Raise IndexError.

(** The values a slice bound can hold in a call of this reader. *)
Inductive pyval : Type :=
  | PyNone
  | PyInt (z : Z)
  | PyFloat (q : Q).

Record slice : Type := mk_slice {
  sl_start : pyval;
  sl_stop : pyval;
  sl_step : pyval
}.

(** [slice] applied to the unpacked tuple: one to three arguments. *)
Definition slice_of_tuple (t : list pyval) : result slice :=
  match t with
  | [b] => Ok (mk_slice PyNone b PyNone)
  | [a; b] => Ok (mk_slice a b PyNone)
  | [a; b; c] => Ok (mk_slice a b c)
  | _ => Raise TypeError
  end.

(** A slice bound must be [None] or an integer. *)
Definition slice_bound (v : pyval) : result (option Z) :=
  match v with
  | PyNone => Ok None
  | PyInt z => Ok (Some z)
  | PyFloat _ => Raise TypeError
  end.

(** Clipping of an explicit bound against a sequence of length [len]
    (CPython's PySlice_AdjustIndices). *)
Definition adjust_bound (len step i : Z) : Z :=
  if i <? 0 then
    let i' := i + len in
    if i' <? 0 then (if step <? 0 then -1 else 0) else i'
  else if len <=? i then (if step <? 0 then len - 1 else len)
  else i.

(** [s.indices(len)]: the step is read first (zero is a [ValueError]), then
    the bounds. *)
Definition slice_indices (s : slice) (len : Z) : result (Z * Z * Z) :=
  st <- slice_bound (sl_step s) ;;
  let step := match st with None => 1 | Some k => k end in
  if step =? 0 then Raise ValueError else
  a <- slice_bound (sl_start s) ;;
  b <- slice_bound (sl_stop s) ;;
  let start := match a with
               | None => if step <? 0 then len - 1 else 0
               | Some i => adjust_bound len step i
               end in
  let stop := match b with
              | None => if step <? 0 then -1 else len
              | Some i => adjust_bound len step i
              end in
  Ok (start, stop, step).

Definition slice_length (start stop step : Z) : Z :=
  if step <? 0 then
    (if stop <? start then (start - stop - 1) / (- step) + 1 else 0)
  else
    (if start <? stop then (stop - start - 1) / step + 1 else 0).

(** ** NumPy *)

(** [np.arange(n, dtype=int)]. *)
Definition np_arange (n : Z) : list Z :=
  map Z.of_nat (seq 0 (Z.to_nat n)).

(** [np.arange(len)[s]]: element [j] of the index domain is [j] itself, so
    the selected elements are [start], [start + step], ... *)
Definition arange_getslice (len : Z) (s : slice) : result (list Z) :=
  t <- slice_indices s (Z.max 0 len) ;;
  let '(start, stop, step) := t in
  Ok (map (fun k => start + Z.of_nat k * step)
          (seq 0 (Z.to_nat (slice_length start stop step)))).

(** [a[indices]] with an integer index array: every index is resolved as
    in [getitem]. *)
Definition np_take {A : Type} (a : list A) (indices : list Z) : result (list A) :=
  mapM (getitem a) indices.

(** [np.linspace(start, stop, num, endpoint=False)]: sample [i] is
    [i * step + start] with [step = (stop - start) / num]; a negative
    sample count is a [ValueError]. *)
Definition np_linspace (start stop : Q) (num : Z) : result (list Q) :=
  if num <? 0 then Raise ValueError
  else
    let step := ((stop - start) / inject_Z num)%Q in
    Ok (map (fun i => (inject_Z (Z.of_nat i) * step + start)%Q)
            (seq 0 (Z.to_nat num))).

(** [np.round]: to the nearest integer, ties to the even one. *)
Definition np_round (x : Q) : Z :=
  let f := Qfloor x in
  let d := (x - inject_Z f)%Q in
  match (d ?= 1 # 2)%Q with
  | Lt => f
  | Gt => f + 1
  | Eq => if Z.even f then f else f + 1
  end.

Definition int64_min : Z := - 2 ^ 63.
Definition int64_max : Z := 2 ^ 63 - 1.

Definition in_int64 (z : Z) : bool := (int64_min <=? z) && (z <=? int64_max).

(** [.astype(int)] on an integral float: the integer itself when int64
    holds it; otherwise the conversion is left to the hardware, which on
    x86-64 yields the smallest int64. *)
Definition astype_int (z : Z) : Z :=
  if in_int64 z then z else int64_min.

(** Element types of RAW frames: the fixed-width integers, little-endian as
    on the hosts the reader runs on. *)
Inductive dtype : Set :=
  | uint8 | int8 | uint16 | int16 | uint32 | int32 | uint64 | int64.

Definition itemsize (dt : dtype) : nat :=
  match dt with
  | uint8 | int8 => 1
  | uint16 | int16 => 2
  | uint32 | int32 => 4
  | uint64 | int64 => 8
  end.

Definition signed (dt : dtype) : bool :=
  match dt with
  | int8 | int16 | int32 | int64 => true
  | _ => false
  end.

Fixpoint le_unsigned (bs : list Byte.byte) : Z :=
  match bs with
  | [] => 0
  | b :: bs' => Z.of_N (Byte.to_N b) + 256 * le_unsigned bs'
  end.

Definition decode (dt : dtype) (bs : list Byte.byte) : Z :=
  let bits := 8 * Z.of_nat (itemsize dt) in
  let u := le_unsigned bs in
  if signed dt && (2 ^ (bits - 1) <=? u) then u - 2 ^ bits else u.

(** The complete items at the head of a byte string, at most [count] of
    them; trailing bytes that do not fill an item are not read. *)
Fixpoint items (sz count : nat) (bs : list Byte.byte) : list (list Byte.byte) :=
  match count with
  | O => []
  | S c =>
      if (length bs <? sz)%nat then []
      else firstn sz bs :: items sz c (skipn sz bs)
  end.

(** [np.fromfile(f, dtype=dt, count=count)] on what is left of the file
    from the current position; [count = None] stands for the default -1,
    which reads to the end. *)
Definition np_fromfile (rest : list Byte.byte) (dt : dtype) (count : option nat)
  : list Z :=
  let c := match count with
           | Some c => c
           | None => length rest
           end in
  map (decode dt) (items (itemsize dt) c rest).

Record ndarray (A : Type) : Type := mk_ndarray {
  shape : list nat;
  data : list A
}.

Arguments mk_ndarray {A} shape data.
Arguments shape {A} n.
Arguments data {A} n.

Definition size_of (sh : list nat) : nat := fold_right Nat.mul 1%nat sh.

Definition shape_eqb (s1 s2 : list nat) : bool :=
  if list_eq_dec Nat.eq_dec s1 s2 then true else false.

(** The one-dimensional array holding a list. *)
Definition np_array1 {A : Type} (l : list A) : ndarray A :=
  mk_ndarray [length l] l.

(** [a.reshape(sh)]: the element count must match. *)
Definition np_reshape {A : Type} (a : ndarray A) (sh : list nat)
  : result (ndarray A) :=
  if (length (data a) =? size_of sh)%nat then Ok (mk_ndarray sh (data a))
  else Raise ValueError.

Definition np_zeros (sh : list nat) : ndarray Z :=
  mk_ndarray sh (repeat 0 (size_of sh)).

(** [np.empty(sh)]: the content is unspecified; the reader overwrites every
    element before it reads any, and the model starts from zeros. *)
Definition np_empty (sh : list nat) : ndarray Z := np_zeros sh.

(** [np.stack(arrays, axis=0)]: at least one array, all of one shape. *)
Definition np_stack {A : Type} (arrays : list (ndarray A)) : result (ndarray A) :=
  match arrays with
  | [] => Raise ValueError
  | a :: rest =>
      if forallb (fun b => shape_eqb (shape b) (shape a)) rest then
        Ok (mk_ndarray (length arrays :: shape a) (concat (map data arrays)))
      else Raise ValueError
  end.

(** [a[k] = v] for [k >= 0]: slot [k] along the leading axis is overwritten.
    [v] has the slot's shape, or is a one-element vector, which NumPy
    broadcasts over the slot; any other shape is a [ValueError].  The
    reader assigns a frame to a frame slot and a vector to a row, and for
    those these are the cases of NumPy's broadcasting. *)
Definition np_setitem {A : Type} (a : ndarray A) (k : nat) (v : ndarray A)
  : result (ndarray A) :=
  match shape a with
  | [] => Raise IndexError
  | n :: sub =>
      if (n <=? k)%nat then Raise IndexError
      else
        let sz := size_of sub in
        let put (slot : list A) :=
          mk_ndarray (shape a)
            (firstn (k * sz) (data a) ++ slot ++ skipn ((k + 1) * sz) (data a)) in
        if shape_eqb (shape v) sub then Ok (put (data v))
        else
          match shape v, data v with
          | [1%nat], [x] => Ok (put (repeat x sz))
          | _, _ => Raise ValueError
          end
  end.

(** float32 values, as IEEE 754 binary32 numbers. *)
Definition float32 : Set := spec_float.

Definition float32_of_Z (z : Z) : float32 := binary_normalize 24 128 z 0 false.

(** [a.astype("float32")] and [np.float32(a)] on an integer array. *)
Definition astype_float32 (a : ndarray Z) : ndarray float32 :=
  mk_ndarray (shape a) (map float32_of_Z (data a)).

(** ** The file system *)

(** The entries of the projection directory: file name and content. *)
Definition directory : Type := list (string * list Byte.byte).

Definition ends_with (suffix s : string) : bool :=
  let n := String.length s in
  let k := String.length suffix in
  (k <=? n)%nat && String.eqb (substring (n - k) k s) suffix.

(** The pattern [*.raw] of [glob]: the name ends in [.raw] and is not
    hidden. *)
Definition matches_raw (name : string) : bool :=
  negb (prefix "." name) && ends_with ".raw" name.

(** [glob.glob(os.path.join(self.projection_path, "*.raw"))]: the matching
    entries in the order the directory lists them.  The paths share the
    directory prefix, so they sort as their file names do. *)
Definition glob_raw (d : directory) : list string :=
  filter matches_raw (map fst d).

(** Python compares strings character by character by code point. *)
Module PathOrder <: TotalLeBool.
Definition t : Type := string.
Definition leb : t -> t -> bool := String.leb.
Definition leb_total : forall x y : t, leb x y = true \/ leb y x = true :=
  String.leb_total.
End PathOrder.

Module PathSort := Sort PathOrder.

(** [sorted(paths)]. *)
Definition sorted (paths : list string) : list string := PathSort.sort paths.

(** [open(raw_file, "rb")] and the whole content behind the handle. *)
Definition open_rb (d : directory) (name : string) : result (list Byte.byte) :=
  match find (fun e => String.eqb (fst e) name) d with
  | Some e => Ok (snd e)
  | None => Raise FileNotFoundError
  end.

(** ** The CIL geometry library

    The reader uses [AcquisitionGeometry] and [AcquisitionData] through
    their constructors and setters only; they are modelled by the records
    those calls fill in. *)

Inductive vertical_extent : Set :=
  | WholePanel
  | CentreRow.

Record AcquisitionGeometry : Type := mk_geometry {
  source_position : Q * Q * Q;
  detector_position : Q * Q * Q;
  num_pixels : Z * Z;
  pixel_size : Q * Q;
  origin : string;
  dimension_labels : list string;
  angles : list Q;
  angle_unit : string;
  vertical : vertical_extent
}.

(** [AcquisitionGeometry.create_Cone3D(source_position, detector_position)]:
    a one-pixel panel and no angles until the setters are called. *)
Definition create_Cone3D (src det : Q * Q * Q) : AcquisitionGeometry :=
  mk_geometry src det (1, 1) (1%Q, 1%Q) "bottom-left"
    ["angle"; "vertical"; "horizontal"]%string [] "degree" WholePanel.

(** [g.set_panel(num_pixels, pixel_size=..., origin=...)]: the panel takes
    pixel counts of at least one. *)
Definition set_panel (g : AcquisitionGeometry) (n : Z * Z) (sz : Q * Q) (o : string)
  : result AcquisitionGeometry :=
  if (fst n <? 1) || (snd n <? 1) then Raise ValueError
  else
    Ok (mk_geometry (source_position g) (detector_position g) n sz o
          (dimension_labels g) (angles g) (angle_unit g) (vertical g)).

Definition set_labels (g : AcquisitionGeometry) (labels : list string)
  : AcquisitionGeometry :=
  mk_geometry (source_position g) (detector_position g) (num_pixels g)
    (pixel_size g) (origin g) labels (angles g) (angle_unit g) (vertical g).

(** [g.set_angles(angles, angle_unit=unit)]. *)
Definition geometry_set_angles (g : AcquisitionGeometry) (a : list Q) (unit : string)
  : AcquisitionGeometry :=
  mk_geometry (source_position g) (detector_position g) (num_pixels g)
    (pixel_size g) (origin g) (dimension_labels g) a unit (vertical g).

(** [g.copy()]: an independent value. *)
Definition copy (g : AcquisitionGeometry) : AcquisitionGeometry := g.

(** [g.shape] under the labels (angle, vertical, horizontal). *)
Definition geometry_shape (g : AcquisitionGeometry) : Z * Z * Z :=
  (Z.of_nat (length (angles g)), snd (num_pixels g), fst (num_pixels g)).

(** [g.get_slice(vertical="centre")]: the vertical axis collapsed to its
    centre row. *)
Definition get_slice_centre (g : AcquisitionGeometry) : AcquisitionGeometry :=
  mk_geometry (source_position g) (detector_position g) (num_pixels g)
    (pixel_size g) (origin g) (dimension_labels g) (angles g) (angle_unit g)
    CentreRow.

Record AcquisitionData : Type := mk_data {
  array : ndarray float32;
  geometry : AcquisitionGeometry
}.

(** ** The XML document *)

Local Unset Elimination Schemes.

Inductive element : Type :=
  | Element (tag : string) (text : option string) (children : list element).

Local Set Elimination Schemes.

Definition tag_of (e : element) : string :=
  match e with Element t _ _ => t end.

Definition text_of (e : element) : option string :=
  match e with Element _ x _ => x end.

Definition children_of (e : element) : list element :=
  match e with Element _ _ c => c end.

(** [e.find(t)]: the first child with tag [t], or [None]. *)
Definition find_child (e : element) (t : string) : option element :=
  find (fun c => String.eqb (tag_of c) t) (children_of e).

(** ** The reader *)

Record ScanMetadata : Type := mk_metadata {
  source_to_detector : Q;
  source_to_object : Q;
  object_to_detector : Q;
  num_projections : Z;
  num_pixels_h : Z;
  num_pixels_v : Z;
  pixel_size_h : Q;
  pixel_size_v : Q
}.

(** The attributes of a reader once [set_up] has run. *)
Record DiondoDataReader : Type := mk_reader {
  meta : ScanMetadata;
  self_angles : list Q;
  full_geometry : AcquisitionGeometry
}.

Section Metadata.

(** The XML parser and the [float] and [int] constructors on text are
    used as they come; [None] is their failure. *)
Variable ET_parse : list Byte.byte -> option element.
Variable py_float : string -> option Q.
Variable py_int : string -> option Z.

(** [conv(parent.find(t).text)]. *)
Definition field {A : Type} (conv : string -> option A)
    (parent : option element) (t : string) : result A :=
  match parent with
  | None => Raise AttributeError
  | Some p =>
      match find_child p t with
      | None => Raise AttributeError
      | Some c =>
          match text_of c with
          | None => Raise TypeError
          | Some s =>
              match conv s with
              | Some v => Ok v
              | None => Raise ValueError
              end
          end
      end
  end.

(** [read_metadata]; [fs] maps a path to the content of the regular file
    found there, so [os.path.isfile] holds where [fs] is defined. *)
Definition read_metadata (fs : string -> option (list Byte.byte))
    (xml_file : string) : result ScanMetadata :=
  match fs xml_file with
  | None => Raise FileNotFoundError
  | Some content =>
      match ET_parse content with
      | None => Raise ParseError
      | Some root =>
          let geom := find_child root "Geometrie" in
          sdd <- field py_float geom "SourceDetectorDist" ;;
          sod <- field py_float geom "SourceObjectDist" ;;
          odd <- field py_float geom "ObjectDetectorDist" ;;
          let recon := find_child root "Recon" in
          n <- field py_int recon "ProjectionCount" ;;
          h <- field py_int recon "ProjectionDimX" ;;
          v <- field py_int recon "ProjectionDimY" ;;
          ph <- field py_float recon "ProjectionPixelSizeX" ;;
          pv <- field py_float recon "ProjectionPixelSizeY" ;;
          Ok (mk_metadata sdd sod odd n h v ph pv)
      end
  end.

End Metadata.

(** [_setup_geometry]: the full-scan cone-beam geometry of the metadata. *)
Definition _setup_geometry (m : ScanMetadata) : result DiondoDataReader :=
  let g0 := create_Cone3D
              (0%Q, (- source_to_object m)%Q, 0%Q)
              (0%Q, (source_to_detector m - source_to_object m)%Q, 0%Q) in
  g1 <- set_panel g0 (num_pixels_h m, num_pixels_v m)
          (pixel_size_h m, pixel_size_v m) "top-left" ;;
  let g2 := set_labels g1 ["angle"; "vertical"; "horizontal"]%string in
  a <- np_linspace (-90 # 1) (270 # 1) (num_projections m) ;;
  Ok (mk_reader m a (geometry_set_angles g2 a "degree")).

(** [set_up]: the metadata is read, then the geometry is built. *)
Definition set_up (ET_parse : list Byte.byte -> option element)
    (py_float : string -> option Q) (py_int : string -> option Z)
    (fs : string -> option (list Byte.byte)) (xml_file : string)
  : result DiondoDataReader :=
  m <- read_metadata ET_parse py_float py_int fs xml_file ;;
  _setup_geometry m.

(** The shapes a [selection] argument takes: a tuple, a slice, an integer,
    or a sequence of angles in degrees. *)
Inductive selection : Type :=
  | SelTuple (t : list pyval)
  | SelSlice (s : slice)
  | SelInt (i : Z)
  | SelAngles (a : list Q).

(** [set_angles]: the selection resolved to indices, [None] for [None]
    (that branch also clears [self._indices], which nothing reads). *)
Definition set_angles (self : DiondoDataReader) (sel : option selection)
  : result (option (list Z)) :=
  let n := num_projections (meta self) in
  let by_slice (s : slice) :=
    indices <- arange_getslice n s ;; Ok (Some indices) in
  match sel with
  | None => Ok None
  | Some (SelTuple t) => s <- slice_of_tuple t ;; by_slice s
  | Some (SelSlice s) => by_slice s
  | Some (SelInt i) =>
      if in_int64 i then Ok (Some [i]) else Raise OverflowError
  | Some (SelAngles a) =>
      Ok (Some (map (fun x =>
                  astype_int (np_round (x / (360 # 1) * inject_Z n)%Q)) a))
  end.

(** [_read_single_raw_file]: the whole file as one frame. *)
Definition _read_single_raw_file (d : directory) (raw_file : string)
    (height width : Z) (dt : dtype) : result (ndarray Z) :=
  content <- open_rb d raw_file ;;
  np_reshape (np_array1 (np_fromfile content dt None))
    [Z.to_nat height; Z.to_nat width].

(** The sequential loop of [read] from iteration [k] on (its progress
    print leaves the result alone and is not modelled). *)
Fixpoint read_loop (d : directory) (height width : Z) (dt : dtype) (k : nat)
    (files : list string) (projection_data : ndarray Z) : result (ndarray Z) :=
  match files with
  | [] => Ok projection_data
  | raw_file :: rest =>
      frame <- _read_single_raw_file d raw_file height width dt ;;
      filled <- np_setitem projection_data k frame ;;
      read_loop d height width dt (S k) rest filled
  end.

(** The RAW files both loaders work on: sorted, last one dropped. *)
Definition enumerate_raw (d : directory) : list string :=
  removelast (sorted (glob_raw d)).

(** [read]; [fread] selects the thread pool.  joblib returns the results
    of the submitted reads as a list in submission order, whatever the
    number of threads and the order of completion, so the pool is the
    comprehension over [selected_files]. *)
Definition read (self : DiondoDataReader) (d : directory)
    (angles_arg : option selection) (dt : dtype) (fread : bool)
  : result AcquisitionData :=
  let raw_files := enumerate_raw d in
  if (length raw_files =? 0)%nat then Raise FileNotFoundError
  else
    resolved <- match angles_arg with
                | None => Ok (Some (np_arange (Z.of_nat (length raw_files))))
                | Some _ => set_angles self angles_arg
                end ;;
    indices <- match resolved with
               | Some ix => Ok ix
               | None => Raise TypeError
               end ;;
    selected_files <- mapM (getitem raw_files) indices ;;
    let v := num_pixels_v (meta self) in
    let h := num_pixels_h (meta self) in
    projection_data <-
      (if fread then
         frames <- mapM (fun raw_file =>
                           _read_single_raw_file d raw_file v h dt)
                     selected_files ;;
         np_stack frames
       else
         read_loop d v h dt 0 selected_files
           (np_empty [length selected_files; Z.to_nat v; Z.to_nat h])) ;;
    subset <- np_take (angles (full_geometry self)) indices ;;
    let geom := geometry_set_angles (copy (full_geometry self)) subset "degree" in
    Ok (mk_data (astype_float32 projection_data) geom).

(** The loop of [read_centre_slice] from iteration [i] on; [offset] is the
    seek position and [count] the number of elements read. *)
Fixpoint centre_loop (d : directory) (dt : dtype) (offset count : nat) (i : nat)
    (files : list string) (central_slices : ndarray Z) : result (ndarray Z) :=
  match files with
  | [] => Ok central_slices
  | raw_file :: rest =>
      content <- open_rb d raw_file ;;
      let row := np_array1 (np_fromfile (skipn offset content) dt (Some count)) in
      filled <- np_setitem central_slices i row ;;
      centre_loop d dt offset count (S i) rest filled
  end.

(** [read_centre_slice]; the [angles] argument is accepted and unused, and
    the file list it stores in [self.raw_files] is read by no method. *)
Definition read_centre_slice (self : DiondoDataReader) (d : directory)
    (angles_arg : option selection) (dt : dtype) : result AcquisitionData :=
  let '(n_angles, n_vertical, n_horizontal) :=
    geometry_shape (full_geometry self) in
  let central_index := n_vertical / 2 in
  let raw_files := enumerate_raw d in
  let geometry2D := get_slice_centre (full_geometry self) in
  let central_slices := np_zeros [Z.to_nat n_angles; Z.to_nat n_horizontal] in
  filled <- centre_loop d dt
              (Z.to_nat (central_index * n_horizontal * Z.of_nat (itemsize dt)))
              (Z.to_nat n_horizontal) 0 raw_files central_slices ;;
  Ok (mk_data (astype_float32 filled) geometry2D).

(** ** Reading arrays and files back

    Notions the statements below use to speak about results. *)

(** [a[k]], flattened: the elements of slot [k] along the leading axis. *)
Definition slot {A : Type} (a : ndarray A) (k : nat) : list A :=
  let sz := size_of (tl (shape a)) in
  firstn sz (skipn (k * sz) (data a)).

(** The array whose leading axis runs over [frames], each of shape
    [rows] x [cols]. *)
Definition stacked {A : Type} (frames : list (ndarray A)) (rows cols : nat)
  : ndarray A :=
  mk_ndarray [length frames; rows; cols] (concat (map data frames)).

(** A frame is a well-shaped block of [rows * cols] elements. *)
Definition is_frame {A : Type} (rows cols : nat) (f : ndarray A) : Prop :=
  shape f = [rows; cols] /\ length (data f) = (rows * cols)%nat.

(** A file that holds exactly one frame of [rows] x [cols] elements. *)
Definition holds_frame (dt : dtype) (rows cols : nat) (content : list Byte.byte)
  : Prop :=
  length (np_fromfile content dt None) = (rows * cols)%nat.

(** The bytes of the scanline that starts at [offset] and has [count]
    elements. *)
Definition scanline_bytes (dt : dtype) (offset count : nat)
    (content : list Byte.byte) : list Byte.byte :=
  firstn (count * itemsize dt) (skipn offset content).

(** A file long enough to hold that scanline. *)
Definition holds_scanline (dt : dtype) (offset count : nat)
    (content : list Byte.byte) : Prop :=
  (offset + count * itemsize dt <= length content)%nat.

(** ** Concrete readers and directories *)

(** The reader [set_up] leaves for the metadata [m]. *)
Definition reader_of (m : ScanMetadata) : DiondoDataReader :=
  match _setup_geometry m with
  | Ok r => r
  | Raise _ => mk_reader m [] (create_Cone3D (0%Q, 0%Q, 0%Q) (0%Q, 0%Q, 0%Q))
  end.

(** A scan of [n] projections on a panel of 2 x 2 pixels. *)
Definition scan (n : Z) : ScanMetadata :=
  mk_metadata (1000 # 1) (400 # 1) (600 # 1) n 2 2 (1 # 10) (1 # 10).

Definition byte_of (n : N) : Byte.byte :=
  match Byte.of_N n with
  | Some b => b
  | None => Byte.x00
  end.

(** A 2 x 2 frame of uint16 pixels [p], [p + 1], [p + 2], [p + 3]. *)
Definition frame_bytes (p : N) : list Byte.byte :=
  [byte_of p; Byte.x00; byte_of (p + 1); Byte.x00;
   byte_of (p + 2); Byte.x00; byte_of (p + 3); Byte.x00].

(** Four frames, listed out of order, beside two entries that are no RAW
    files. *)
Definition four_frames : directory :=
  [("p0002.raw", frame_bytes 30); ("p0000.raw", frame_bytes 10);
   ("scan.xml", []); ("p0001.raw", frame_bytes 20);
   (".hidden.raw", frame_bytes 90); ("p0003.raw", frame_bytes 40)]%string.

(** ** Further notions used by the statements *)

(** The slice [slice(None)], that is [:]. *)
Definition full_slice : slice := mk_slice PyNone PyNone PyNone.

(** The integer a float32 holds, when it holds one. *)
Definition float32_to_Z (f : float32) : option Z :=
  match f with
  | S754_zero _ => Some 0
  | S754_finite s m e =>
      let sign := if s then -1 else 1 in
      if 0 <=? e then Some (sign * (Z.pos m * 2 ^ e))
      else if Z.pos m mod 2 ^ (- e) =? 0
           then Some (sign * (Z.pos m / 2 ^ (- e)))
           else None
  | _ => None
  end.

(** Whether a float32 holds exactly the integer it was converted from. *)
Definition float32_exact (z : Z) : bool :=
  match float32_to_Z (float32_of_Z z) with
  | Some z' => z' =? z
  | None => false
  end.

(** [holds_from p z n]: the test [p] holds on the [n] integers from [z]
    on. *)
Fixpoint holds_from (p : Z -> bool) (z : Z) (n : nat) : bool :=
  match n with
  | O => true
  | S n' => p z && holds_from p (z + 1) n'
  end.

(** The dtypes of at most 16 bits. *)
Definition narrow (dt : dtype) : bool :=
  match dt with
  | uint8 | int8 | uint16 | int16 => true
  | _ => false
  end.

(** What a row assignment stores for the vector [got] read from a file:
    the vector itself when it fills the row, its only element repeated
    when it has one. *)
Definition row_written (h : nat) (got : list Z) : list Z :=
  if (length got =? h)%nat then got else repeat (hd 0 got) h.

(** The directory without the entries that [glob] does not match. *)
Definition raw_entries (d : directory) : directory :=
  filter (fun e => matches_raw (fst e)) d.

(** The directory with the content of the file [name] replaced. *)
Definition with_content (d : directory) (name : string)
    (content : list Byte.byte) : directory :=
  map (fun e => if String.eqb (fst e) name then (fst e, content) else e) d.

(** A metadata document for a scan of four projections on a panel of
    2 x 2 pixels, and number parsers that know the texts it uses. *)
Definition leaf (tag text : string) : element := Element tag (Some text) [].

Definition example_document : element :=
  Element "Scan" None
    [Element "Geometrie" None
       [leaf "SourceDetectorDist" "1000"; leaf "SourceObjectDist" "400";
        leaf "ObjectDetectorDist" "600"];
     Element "Recon" None
       [leaf "ProjectionCount" "4"; leaf "ProjectionDimX" "2";
        leaf "ProjectionDimY" "2"; leaf "ProjectionPixelSizeX" "0.1";
        leaf "ProjectionPixelSizeY" "0.1"]]%string.

Definition example_int (s : string) : option Z :=
  if String.eqb s "4" then Some 4
  else if String.eqb s "2" then Some 2
  else None.

Definition example_float (s : string) : option Q :=
  if String.eqb s "1000" then Some (1000 # 1)
  else if String.eqb s "400" then Some (400 # 1)
  else if String.eqb s "600" then Some (600 # 1)
  else if String.eqb s "0.1" then Some (1 # 10)
  else None.

(** A file system holding that document at [scan.xml], and a parser that
    reads it back. *)
Definition example_fs (path : string) : option (list Byte.byte) :=
  if String.eqb path "scan.xml" then Some [] else None.

Definition example_parse (content : list Byte.byte) : option element :=
  Some example_document.

(** * Properties *)

(** ** The error monad and list access *)

Lemma bind_Ok_inv {A B : Type} (m : result A) (k : A -> result B) (b : B) :
  bind m k = Ok b -> exists a, m = Ok a /\ k a = Ok b.
Proof.
  destruct m as [a | e]; simpl; intros H.
  - exists a. split; [reflexivity | exact H].
  - discriminate H.
Qed.

(** One step through a successful [bind]. *)
Ltac bind_inv H x Hx :=
  apply bind_Ok_inv in H; destruct H as (x & Hx & H).

Lemma mapM_Forall2 {A B : Type} (f : A -> result B) (l : list A) (ys : list B) :
  mapM f l = Ok ys <-> Forall2 (fun x y => f x = Ok y) l ys.
Proof.
  revert ys. induction l as [| x l IH]; intros ys; simpl.
  - split; intros H.
    + injection H as <-. constructor.
    + inversion H. reflexivity.
  - split; intros H.
    + bind_inv H y Hy. bind_inv H ys' Hys.
      injection H as <-. constructor; [exact Hy |]. apply IH. exact Hys.
    + inversion H as [| x' y l' ys' Hy Hrest]; subst.
      rewrite Hy. simpl. apply IH in Hrest. rewrite Hrest. reflexivity.
Qed.

Lemma mapM_length {A B : Type} (f : A -> result B) (l : list A) (ys : list B) :
  mapM f l = Ok ys -> length ys = length l.
Proof.
  intros H. apply mapM_Forall2 in H. symmetry. eapply Forall2_length. exact H.
Qed.

Lemma mapM_nth_error {A B : Type} (f : A -> result B) (l : list A) (ys : list B)
    (k : nat) (x : A) :
  mapM f l = Ok ys -> nth_error l k = Some x ->
  exists y, nth_error ys k = Some y /\ f x = Ok y.
Proof.
  intros H. apply mapM_Forall2 in H. revert k.
  induction H as [| x' y l' ys' Hy _ IH]; intros k Hk.
  - destruct k; discriminate Hk.
  - destruct k as [| k]; simpl in *.
    + injection Hk as <-. exists y. split; [reflexivity | exact Hy].
    + apply IH. exact Hk.
Qed.

Lemma mapM_ext {A B : Type} (f g : A -> result B) (l : list A) :
  (forall x, In x l -> f x = g x) -> mapM f l = mapM g l.
Proof.
  induction l as [| x l IH]; intros H; simpl; [reflexivity |].
  rewrite (H x (or_introl eq_refl)).
  rewrite IH; [reflexivity |]. intros y Hy. apply H. right. exact Hy.
Qed.

Lemma getitem_nonneg {A : Type} (l : list A) (k : nat) (a : A) :
  nth_error l k = Some a -> getitem l (Z.of_nat k) = Ok a.
Proof.
  intros H. assert (Hk : (k < length l)%nat).
  { apply nth_error_Some. rewrite H. discriminate. }
  unfold getitem.
  replace (Z.of_nat k <? 0) with false by (symmetry; apply Z.ltb_ge; lia).
  replace (0 <=? Z.of_nat k) with true by (symmetry; apply Z.leb_le; lia).
  replace (Z.of_nat k <? Z.of_nat (length l)) with true
    by (symmetry; apply Z.ltb_lt; lia).
  simpl. rewrite Nat2Z.id, H. reflexivity.
Qed.

Lemma getitem_Ok_range {A : Type} (l : list A) (i : Z) (a : A) :
  getitem l i = Ok a ->
  - Z.of_nat (length l) <= i < Z.of_nat (length l).
Proof.
  unfold getitem.
  destruct (i <? 0) eqn:Hneg;
    [apply Z.ltb_lt in Hneg | apply Z.ltb_ge in Hneg];
    destruct (_ <=? _) eqn:H1; simpl; try discriminate;
    destruct (_ <? _) eqn:H2; simpl; try discriminate;
    apply Z.leb_le in H1; apply Z.ltb_lt in H2; intros _; lia.
Qed.

Lemma getitem_out_of_range {A : Type} (l : list A) (i : Z) :
  i < - Z.of_nat (length l) \/ Z.of_nat (length l) <= i ->
  getitem l i = Raise IndexError.
Proof.
  intros H. destruct (getitem l i) as [a | e] eqn:E.
  - apply getitem_Ok_range in E. lia.
  - revert E. unfold getitem.
    destruct (_ && _); [destruct (nth_error _ _) |]; congruence.
Qed.

Lemma getitem_raises_only_IndexError {A : Type} (l : list A) (i : Z) (e : exn) :
  getitem l i = Raise e -> e = IndexError.
Proof.
  unfold getitem.
  destruct (_ && _); [destruct (nth_error _ _) |]; congruence.
Qed.

Lemma getitem_in_range {A : Type} (l : list A) (i : Z) :
  - Z.of_nat (length l) <= i < Z.of_nat (length l) ->
  exists a, getitem l i = Ok a.
Proof.
  intros H. unfold getitem.
  set (j := if i <? 0 then i + Z.of_nat (length l) else i).
  assert (Hj : 0 <= j < Z.of_nat (length l)).
  { subst j. destruct (i <? 0) eqn:E;
      [apply Z.ltb_lt in E | apply Z.ltb_ge in E]; lia. }
  replace (0 <=? j) with true by (symmetry; apply Z.leb_le; lia).
  replace (j <? Z.of_nat (length l)) with true
    by (symmetry; apply Z.ltb_lt; lia).
  simpl. destruct (nth_error l (Z.to_nat j)) as [a |] eqn:E.
  - exists a. reflexivity.
  - apply nth_error_None in E. lia.
Qed.

(** An index array with an entry outside [-len, len) cannot be resolved. *)
Lemma mapM_getitem_out_of_range {A : Type} (l : list A) (indices : list Z) :
  (exists i, In i indices /\
             (i < - Z.of_nat (length l) \/ Z.of_nat (length l) <= i)) ->
  mapM (getitem l) indices = Raise IndexError.
Proof.
  induction indices as [| j indices IH]; intros (i & Hin & Hout).
  - destruct Hin.
  - simpl. destruct (getitem l j) as [a | e] eqn:E; simpl.
    + destruct Hin as [-> | Hin].
      * rewrite getitem_out_of_range in E by exact Hout. discriminate E.
      * rewrite IH; [reflexivity |]. exists i. split; assumption.
    + apply getitem_raises_only_IndexError in E. subst e. reflexivity.
Qed.

Lemma mapM_getitem_arange {A : Type} (l : list A) :
  mapM (getitem l) (np_arange (Z.of_nat (length l))) = Ok l.
Proof.
  apply mapM_Forall2. unfold np_arange. rewrite Nat2Z.id.
  assert (G : forall pre suf, l = pre ++ suf ->
            Forall2 (fun (x : Z) (y : A) => getitem l x = Ok y)
              (map Z.of_nat (seq (length pre) (length suf))) suf).
  { intros pre suf. revert pre.
    induction suf as [| a suf IH]; intros pre E; simpl; constructor.
    - apply getitem_nonneg. subst l.
      rewrite nth_error_app2, Nat.sub_diag by lia. reflexivity.
    - specialize (IH (pre ++ [a])). rewrite length_app in IH. simpl in IH.
      rewrite Nat.add_1_r in IH. apply IH. rewrite <- app_assoc. exact E. }
  apply (G [] l). reflexivity.
Qed.


(** ** Enumeration of the RAW files *)

Lemma ascii_compare_N (a b : ascii) :
  Ascii.compare a b = N.compare (N_of_ascii a) (N_of_ascii b).
Proof. reflexivity. Qed.

Lemma string_compare_refl (s : string) : String.compare s s = Eq.
Proof.
  induction s as [| c s IH]; simpl; [reflexivity |].
  rewrite ascii_compare_N, N.compare_refl. exact IH.
Qed.

Lemma string_leb_trans (s1 s2 s3 : string) :
  String.leb s1 s2 = true -> String.leb s2 s3 = true -> String.leb s1 s3 = true.
Proof.
  unfold String.leb. revert s2 s3.
  induction s1 as [| c1 s1 IH]; intros [| c2 s2] [| c3 s3]; simpl;
    try reflexivity; try discriminate.
  rewrite !ascii_compare_N.
  destruct (N.compare_spec (N_of_ascii c1) (N_of_ascii c2)) as [E12 | L12 | G12];
    destruct (N.compare_spec (N_of_ascii c2) (N_of_ascii c3)) as [E23 | L23 | G23];
    try discriminate; intros H12 H23.
  - rewrite E12, E23, N.compare_refl. exact (IH _ _ H12 H23).
  - rewrite E12. apply N.compare_lt_iff in L23. rewrite L23. reflexivity.
  - rewrite <- E23. apply N.compare_lt_iff in L12. rewrite L12. reflexivity.
  - assert (L13 : (N_of_ascii c1 < N_of_ascii c3)%N) by lia.
    apply N.compare_lt_iff in L13. rewrite L13. reflexivity.
Qed.

Lemma sorted_permutation (l : list string) : Permutation l (sorted l).
Proof. apply PathSort.Permuted_sort. Qed.

Lemma sorted_ascending (l : list string) :
  StronglySorted (fun a b => String.leb a b = true) (sorted l).
Proof.
  assert (T : Transitive (fun a b : string => is_true (PathOrder.leb a b))).
  { intros a b c. apply string_leb_trans. }
  exact (PathSort.StronglySorted_sort l T).
Qed.




(** The enumeration is the sorted listing without its greatest name. *)
Lemma enumerate_raw_drops_last (d : directory) :
  glob_raw d <> [] ->
  exists dropped, sorted (glob_raw d) = enumerate_raw d ++ [dropped].
Proof.
  intros H. exists (last (sorted (glob_raw d)) EmptyString).
  unfold enumerate_raw. apply app_removelast_last.
  intros E. apply H. apply Permutation_nil.
  rewrite <- E. apply Permutation_sym, sorted_permutation.
Qed.

Lemma open_rb_listed (d : directory) (name : string) :
  In name (map fst d) -> exists content, open_rb d name = Ok content.
Proof.
  intros H. unfold open_rb.
  destruct (find _ d) as [e |] eqn:E.
  - exists (snd e). reflexivity.
  - exfalso. apply in_map_iff in H. destruct H as (e & He & Hin).
    apply (find_none _ _ E) in Hin. rewrite He, String.eqb_refl in Hin.
    discriminate Hin.
Qed.

Lemma enumerate_raw_listed (d : directory) (name : string) :
  In name (enumerate_raw d) -> In name (map fst d).
Proof.
  intros H. destruct (glob_raw d) as [| g gs] eqn:E.
  - unfold enumerate_raw, sorted in H. rewrite E in H. destruct H.
  - destruct (enumerate_raw_drops_last d) as (x & Hx); [rewrite E; discriminate |].
    assert (Hs : In name (sorted (glob_raw d))).
    { rewrite Hx. apply in_or_app. left. exact H. }
    apply (Permutation_in _ (Permutation_sym (sorted_permutation _))) in Hs.
    unfold glob_raw in Hs. apply filter_In in Hs. apply Hs.
Qed.

(** ** Geometry derivation *)


Lemma setup_geometry_inv (m : ScanMetadata) (r : DiondoDataReader) :
  _setup_geometry m = Ok r ->
  0 <= num_projections m /\ 1 <= num_pixels_h m /\ 1 <= num_pixels_v m /\
  meta r = m /\
  np_linspace (-90 # 1) (270 # 1) (num_projections m) = Ok (self_angles r) /\
  angles (full_geometry r) = self_angles r /\
  angle_unit (full_geometry r) = "degree"%string /\
  num_pixels (full_geometry r) = (num_pixels_h m, num_pixels_v m).
Proof.
  unfold _setup_geometry, set_panel. simpl fst. simpl snd.
  destruct (num_pixels_h m <? 1) eqn:Hh; [discriminate |].
  destruct (num_pixels_v m <? 1) eqn:Hv; [discriminate |].
  simpl. intros H. bind_inv H a Ha.
  injection H as <-. simpl.
  apply Z.ltb_ge in Hh. apply Z.ltb_ge in Hv.
  assert (Hn : 0 <= num_projections m).
  { unfold np_linspace in Ha.
    destruct (num_projections m <? 0) eqn:E; [discriminate |].
    apply Z.ltb_ge in E. exact E. }
  repeat split; try assumption; lia.
Qed.

(** The full geometry has one angle per projection. *)
Lemma setup_geometry_angle_count (m : ScanMetadata) (r : DiondoDataReader) :
  _setup_geometry m = Ok r ->
  length (angles (full_geometry r)) = Z.to_nat (num_projections m).
Proof.
  intros H. apply setup_geometry_inv in H.
  destruct H as (_ & _ & _ & _ & Hlin & Hang & _).
  rewrite Hang. revert Hlin. unfold np_linspace.
  destruct (num_projections m <? 0); [discriminate |].
  intros H. injection H as <-. rewrite length_map, length_seq. reflexivity.
Qed.




(** ** Selection resolution *)







(** ** Frames and the two assembly paths of [read] *)

Lemma read_single_inv (d : directory) (raw_file : string) (height width : Z)
    (dt : dtype) (frame : ndarray Z) :
  _read_single_raw_file d raw_file height width dt = Ok frame ->
  exists content,
    open_rb d raw_file = Ok content /\
    holds_frame dt (Z.to_nat height) (Z.to_nat width) content /\
    frame = mk_ndarray [Z.to_nat height; Z.to_nat width]
              (np_fromfile content dt None).
Proof.
  unfold _read_single_raw_file, np_reshape, np_array1, holds_frame.
  intros H. bind_inv H content Hc.
  exists content. split; [exact Hc |]. simpl in H.
  rewrite Nat.mul_1_r in H.
  destruct (Nat.eqb_spec (length (np_fromfile content dt None))
              (Z.to_nat height * Z.to_nat width)) as [E | E];
    [| discriminate H].
  injection H as <-. split; [exact E | reflexivity].
Qed.

Lemma read_single_intro (d : directory) (raw_file : string) (height width : Z)
    (dt : dtype) (content : list Byte.byte) :
  open_rb d raw_file = Ok content ->
  holds_frame dt (Z.to_nat height) (Z.to_nat width) content ->
  _read_single_raw_file d raw_file height width dt
  = Ok (mk_ndarray [Z.to_nat height; Z.to_nat width]
          (np_fromfile content dt None)).
Proof.
  unfold _read_single_raw_file, np_reshape, np_array1, holds_frame.
  intros -> E. simpl. rewrite Nat.mul_1_r.
  apply Nat.eqb_eq in E. rewrite E. reflexivity.
Qed.

Lemma shape_eqb_refl (sh : list nat) : shape_eqb sh sh = true.
Proof.
  unfold shape_eqb. destruct (list_eq_dec Nat.eq_dec sh sh); congruence.
Qed.

Lemma shape_eqb_eq (s1 s2 : list nat) : shape_eqb s1 s2 = true -> s1 = s2.
Proof.
  unfold shape_eqb. destruct (list_eq_dec Nat.eq_dec s1 s2); congruence.
Qed.

Lemma read_frames_shape (d : directory) (height width : Z) (dt : dtype)
    (files : list string) (frames : list (ndarray Z)) :
  mapM (fun f => _read_single_raw_file d f height width dt) files = Ok frames ->
  Forall (is_frame (Z.to_nat height) (Z.to_nat width)) frames.
Proof.
  intros H. apply mapM_Forall2 in H.
  induction H as [| f fr files frames Hf _ IH]; constructor; [| exact IH].
  apply read_single_inv in Hf. destruct Hf as (content & _ & Hlen & ->).
  split; [reflexivity | exact Hlen].
Qed.

Lemma np_stack_frames {A : Type} (rows cols : nat) (frames : list (ndarray A)) :
  frames <> [] ->
  Forall (is_frame rows cols) frames ->
  np_stack frames = Ok (stacked frames rows cols).
Proof.
  intros Hne Hall. destruct frames as [| f rest]; [congruence |].
  unfold np_stack, stacked.
  inversion Hall as [| f' rest' (Hsh & _) Hrest]; subst.
  replace (forallb (fun b => shape_eqb (shape b) (shape f)) rest) with true.
  - rewrite Hsh. reflexivity.
  - symmetry. apply forallb_forall. intros b Hb.
    rewrite Forall_forall in Hrest. destruct (Hrest b Hb) as (Hb' & _).
    rewrite Hb', Hsh. apply shape_eqb_refl.
Qed.

Lemma np_setitem_frame {A : Type} (a : ndarray A) (n rows cols k : nat)
    (f : ndarray A) :
  shape a = [n; rows; cols] -> (k < n)%nat -> is_frame rows cols f ->
  np_setitem a k f
  = Ok (mk_ndarray [n; rows; cols]
          (firstn (k * (rows * cols)) (data a) ++ data f
           ++ skipn ((k + 1) * (rows * cols)) (data a))).
Proof.
  intros Ha Hk (Hf & _). unfold np_setitem. rewrite Ha.
  replace (n <=? k)%nat with false by (symmetry; apply Nat.leb_gt; exact Hk).
  rewrite Hf, shape_eqb_refl. simpl size_of. rewrite Nat.mul_1_r. reflexivity.
Qed.

(** The sequential loop leaves the frames of the files, in order, behind
    the slots filled before it started. *)
Lemma read_loop_fills (d : directory) (height width : Z) (dt : dtype)
    (n : nat) (files : list string) :
  forall (k : nat) (pd : ndarray Z),
    shape pd = [n; Z.to_nat height; Z.to_nat width] ->
    length (data pd) = (n * (Z.to_nat height * Z.to_nat width))%nat ->
    (k + length files = n)%nat ->
    read_loop d height width dt k files pd
    = (frames <- mapM (fun f => _read_single_raw_file d f height width dt)
                   files ;;
       Ok (mk_ndarray [n; Z.to_nat height; Z.to_nat width]
             (firstn (k * (Z.to_nat height * Z.to_nat width)) (data pd)
              ++ concat (map data frames)))).
Proof.
  remember (Z.to_nat height) as rows eqn:Hrows.
  remember (Z.to_nat width) as cols eqn:Hcols.
  induction files as [| f files IH]; intros k pd Hsh Hlen Hk; simpl.
  - simpl in Hk. rewrite Nat.add_0_r in Hk. subst k.
    rewrite app_nil_r, firstn_all2 by lia.
    destruct pd as [sh dat]. simpl in *. subst sh. reflexivity.
  - simpl in Hk.
    destruct (_read_single_raw_file d f height width dt) as [fr | e] eqn:Hf;
      simpl; [| reflexivity].
    assert (Hfr : is_frame rows cols fr).
    { apply read_single_inv in Hf. destruct Hf as (c & _ & Hc & ->).
      subst rows cols. split; [reflexivity | exact Hc]. }
    rewrite (np_setitem_frame pd n rows cols k fr Hsh) by (lia || exact Hfr).
    simpl bind. rewrite IH; simpl.
    + destruct (mapM _ files) as [frames | e]; simpl; [| reflexivity].
      f_equal. f_equal.
      destruct Hfr as (_ & Hfl).
      rewrite firstn_app.
      assert (Hpre : length (firstn (k * (rows * cols)) (data pd))
                     = (k * (rows * cols))%nat).
      { rewrite length_firstn. apply Nat.min_l. rewrite Hlen.
        apply Nat.mul_le_mono_r. lia. }
      rewrite Hpre.
      replace (rows * cols + k * (rows * cols) - k * (rows * cols))%nat
        with (rows * cols)%nat by lia.
      rewrite firstn_all2 by (rewrite Hpre; lia).
      rewrite firstn_app, Hfl, Nat.sub_diag. simpl firstn at 2.
      rewrite app_nil_r, (firstn_all2 (n := (rows * cols)%nat) (data fr)) by lia.
      rewrite <- app_assoc. reflexivity.
    + reflexivity.
    + destruct Hfr as (_ & Hfl).
      rewrite !length_app, length_firstn, length_skipn, Hfl, Hlen.
      rewrite Nat.min_l by (apply Nat.mul_le_mono_r; lia).
      nia.
    + lia.
Qed.

Lemma size_of_frame_stack (n rows cols : nat) :
  size_of [n; rows; cols] = (n * (rows * cols))%nat.
Proof. simpl. rewrite Nat.mul_1_r. reflexivity. Qed.

(** [read] in one piece: both assembly paths build [stacked frames]; the
    thread-pool path alone refuses an empty list of frames. *)
Lemma read_unfold (self : DiondoDataReader) (d : directory)
    (a : option selection) (dt : dtype) (fread : bool) :
  read self d a dt fread
  = (if (length (enumerate_raw d) =? 0)%nat then Raise FileNotFoundError
     else
       resolved <- match a with
                   | None => Ok (Some (np_arange
                                         (Z.of_nat (length (enumerate_raw d)))))
                   | Some _ => set_angles self a
                   end ;;
       indices <- match resolved with
                  | Some ix => Ok ix
                  | None => Raise TypeError
                  end ;;
       selected_files <- mapM (getitem (enumerate_raw d)) indices ;;
       frames <- mapM (fun raw_file =>
                         _read_single_raw_file d raw_file
                           (num_pixels_v (meta self)) (num_pixels_h (meta self))
                           dt) selected_files ;;
       if fread && (length frames =? 0)%nat then Raise ValueError
       else
         subset <- np_take (angles (full_geometry self)) indices ;;
         Ok (mk_data
               (astype_float32
                  (stacked frames (Z.to_nat (num_pixels_v (meta self)))
                     (Z.to_nat (num_pixels_h (meta self)))))
               (geometry_set_angles (copy (full_geometry self)) subset
                  "degree"))).
Proof.
  unfold read. cbv zeta.
  destruct (length (enumerate_raw d) =? 0)%nat; [reflexivity |].
  destruct (match a with None => _ | Some _ => _ end) as [resolved | e];
    simpl; [| reflexivity].
  destruct resolved as [indices |]; simpl; [| reflexivity].
  destruct (mapM (getitem (enumerate_raw d)) indices) as [selected | e];
    simpl; [| reflexivity].
  set (v := num_pixels_v (meta self)). set (h := num_pixels_h (meta self)).
  destruct fread; simpl.
  - destruct (mapM _ selected) as [frames | e] eqn:Hframes; simpl;
      [| reflexivity].
    destruct frames as [| f frames]; [reflexivity |].
    rewrite (np_stack_frames (Z.to_nat v) (Z.to_nat h)).
    + reflexivity.
    + discriminate.
    + eapply read_frames_shape. exact Hframes.
  - rewrite (read_loop_fills d v h dt (length selected)).
    + destruct (mapM _ selected) as [frames | e] eqn:Hframes; simpl;
        [| reflexivity].
      unfold stacked. rewrite (mapM_length _ _ _ Hframes). reflexivity.
    + reflexivity.
    + unfold np_empty, np_zeros. simpl data.
      rewrite repeat_length. apply size_of_frame_stack.
    + reflexivity.
Qed.

Lemma concat_block {A : Type} (sz : nat) (blocks : list (list A)) :
  Forall (fun b => length b = sz) blocks ->
  forall (k : nat) (b : list A),
    nth_error blocks k = Some b ->
    firstn sz (skipn (k * sz) (concat blocks)) = b.
Proof.
  induction 1 as [| b0 blocks Hb0 _ IH]; intros k b Hk.
  - destruct k; discriminate Hk.
  - destruct k as [| k]; simpl in *.
    + injection Hk as <-.
      rewrite firstn_app, Hb0, Nat.sub_diag. simpl.
      rewrite app_nil_r. apply firstn_all2. lia.
    + rewrite skipn_app, Hb0.
      replace (sz + k * sz - sz)%nat with (k * sz)%nat by lia.
      rewrite skipn_all2 by lia. simpl. apply IH. exact Hk.
Qed.

(** Slot [k] of a stack of frames holds frame [k], converted. *)
Lemma slot_stacked (rows cols : nat) (frames : list (ndarray Z)) (k : nat)
    (f : ndarray Z) :
  Forall (is_frame rows cols) frames ->
  nth_error frames k = Some f ->
  slot (astype_float32 (stacked frames rows cols)) k
  = map float32_of_Z (data f).
Proof.
  intros Hall Hk. unfold slot, astype_float32, stacked. simpl.
  rewrite Nat.mul_1_r, concat_map, map_map.
  apply concat_block.
  - apply Forall_map. eapply Forall_impl; [| exact Hall].
    intros fr (_ & Hlen). rewrite length_map. exact Hlen.
  - rewrite nth_error_map, Hk. reflexivity.
Qed.

(** What a successful [read] went through. *)
Lemma read_Ok_inv (self : DiondoDataReader) (d : directory)
    (a : option selection) (dt : dtype) (fread : bool) (out : AcquisitionData) :
  read self d a dt fread = Ok out ->
  exists indices selected frames subset,
    enumerate_raw d <> [] /\
    match a with
    | None => indices = np_arange (Z.of_nat (length (enumerate_raw d)))
    | Some _ => set_angles self a = Ok (Some indices)
    end /\
    mapM (getitem (enumerate_raw d)) indices = Ok selected /\
    mapM (fun raw_file =>
            _read_single_raw_file d raw_file (num_pixels_v (meta self))
              (num_pixels_h (meta self)) dt) selected = Ok frames /\
    np_take (angles (full_geometry self)) indices = Ok subset /\
    out = mk_data
            (astype_float32
               (stacked frames (Z.to_nat (num_pixels_v (meta self)))
                  (Z.to_nat (num_pixels_h (meta self)))))
            (geometry_set_angles (copy (full_geometry self)) subset "degree").
Proof.
  rewrite read_unfold.
  destruct (length (enumerate_raw d) =? 0)%nat eqn:Hn; [discriminate |].
  intros H.
  bind_inv H resolved Hres. bind_inv H indices Hix.
  bind_inv H selected Hsel. bind_inv H frames Hfr.
  destruct (fread && _); [discriminate |].
  bind_inv H subset Hsub.
  injection H as <-.
  exists indices, selected, frames, subset.
  destruct resolved as [ix |]; [| discriminate Hix]. injection Hix as ->.
  repeat split; try assumption.
  - intros E. rewrite E in Hn. discriminate Hn.
  - destruct a; [exact Hres | congruence].
Qed.

(** ** The projection loader *)

(** C1: when the selection resolves to [indices] ([None] to all files in
    order) and [read] returns, on either execution path, the returned
    geometry is the full geometry with only its angles replaced; the new
    angles are [full_geometry.angles] taken at [indices], element for
    element, and frame [k] of the data is the file at index [indices[k]],
    so angle [k] belongs to frame [k]. *)
Theorem read_geometry_tracks_selection (self : DiondoDataReader) (d : directory)
    (a : option selection) (dt : dtype) (fread : bool) (indices : list Z)
    (out : AcquisitionData) :
  match a with
  | None => indices = np_arange (Z.of_nat (length (enumerate_raw d)))
  | Some _ => set_angles self a = Ok (Some indices)
  end ->
  read self d a dt fread = Ok out ->
  geometry out
  = geometry_set_angles (copy (full_geometry self)) (angles (geometry out))
      "degree" /\
  Forall2 (fun i x => getitem (angles (full_geometry self)) i = Ok x)
    indices (angles (geometry out)) /\
  shape (array out)
  = [length indices; Z.to_nat (num_pixels_v (meta self));
     Z.to_nat (num_pixels_h (meta self))] /\
  (forall k i,
     nth_error indices k = Some i ->
     exists raw_file content x,
       getitem (enumerate_raw d) i = Ok raw_file /\
       open_rb d raw_file = Ok content /\
       slot (array out) k = map float32_of_Z (np_fromfile content dt None) /\
       nth_error (angles (geometry out)) k = Some x /\
       getitem (angles (full_geometry self)) i = Ok x).
Proof.
  intros Hres Hread. apply read_Ok_inv in Hread.
  destruct Hread as (ix & selected & frames & subset & _ & Hix & Hsel & Hfr
                     & Hsub & ->).
  assert (E : ix = indices).
  { destruct a; [rewrite Hres in Hix; congruence | congruence]. }
  subst ix. simpl.
  split; [reflexivity |].
  split; [apply mapM_Forall2; exact Hsub |].
  split.
  - rewrite (mapM_length _ _ _ Hfr), (mapM_length _ _ _ Hsel). reflexivity.
  - intros k i Hk.
    destruct (mapM_nth_error _ _ _ _ _ Hsel Hk) as (raw_file & Hk1 & Hget).
    destruct (mapM_nth_error _ _ _ _ _ Hfr Hk1) as (f & Hk2 & Hf).
    destruct (mapM_nth_error _ _ _ _ _ Hsub Hk) as (x & Hk3 & Hx).
    pose proof (read_frames_shape _ _ _ _ _ _ Hfr) as Hshape.
    apply read_single_inv in Hf. destruct Hf as (content & Hopen & _ & Hfeq).
    exists raw_file, content, x.
    repeat split; try assumption.
    rewrite (slot_stacked _ _ _ _ _ Hshape Hk2), Hfeq. reflexivity.
Qed.

Lemma read_geometry_tracks_selection_witness :
  set_angles (reader_of (scan 4))
    (Some (SelTuple [PyInt 0; PyInt 3; PyInt 2])) = Ok (Some [0; 2]) /\
  exists out,
    read (reader_of (scan 4)) four_frames
      (Some (SelTuple [PyInt 0; PyInt 3; PyInt 2])) uint16 true = Ok out /\
    Forall2 (fun i x => getitem (angles (full_geometry (reader_of (scan 4)))) i
                        = Ok x)
      [0; 2] (angles (geometry out)).
Proof.
  split; [reflexivity |].
  eexists. split; [vm_compute; reflexivity |].
  apply (read_geometry_tracks_selection (reader_of (scan 4)) four_frames
           (Some (SelTuple [PyInt 0; PyInt 3; PyInt 2])) uint16 true [0; 2]);
    reflexivity.
Defined.

Lemma mapM_total {A B : Type} (f : A -> result B) (l : list A) :
  (forall x, In x l -> exists y, f x = Ok y) ->
  exists ys, mapM f l = Ok ys.
Proof.
  induction l as [| x l IH]; intros H; simpl.
  - exists []. reflexivity.
  - destruct (H x (or_introl eq_refl)) as (y & Hy).
    destruct IH as (ys & Hys); [intros z Hz; apply H; right; exact Hz |].
    exists (y :: ys). rewrite Hy. simpl. rewrite Hys. reflexivity.
Qed.












(** The two paths of [read] agree, on results and on errors, for every
    selection that does not resolve to the empty index list. *)
Theorem read_paths_agree (self : DiondoDataReader) (d : directory)
    (a : option selection) (dt : dtype) :
  set_angles self a <> Ok (Some []) ->
  read self d a dt true = read self d a dt false.
Proof.
  intros Hne. rewrite !read_unfold.
  destruct (length (enumerate_raw d) =? 0)%nat eqn:Hn; [reflexivity |].
  apply Nat.eqb_neq in Hn.
  destruct (match a with None => _ | Some _ => _ end) as [resolved | e] eqn:Hres;
    simpl; [| reflexivity].
  destruct resolved as [indices |]; simpl; [| reflexivity].
  destruct (mapM (getitem (enumerate_raw d)) indices) as [selected | e] eqn:Hsel;
    simpl; [| reflexivity].
  destruct (mapM _ selected) as [frames | e] eqn:Hfr; simpl; [| reflexivity].
  destruct (length frames =? 0)%nat eqn:Hz; [| reflexivity].
  exfalso. apply Nat.eqb_eq in Hz.
  rewrite (mapM_length _ _ _ Hfr), (mapM_length _ _ _ Hsel) in Hz.
  apply length_zero_iff_nil in Hz. subst indices.
  destruct a as [sel |].
  - apply Hne. exact Hres.
  - injection Hres as Hres. unfold np_arange in Hres.
    rewrite Nat2Z.id in Hres.
    destruct (length (enumerate_raw d)); [congruence | discriminate Hres].
Qed.

Lemma read_paths_agree_witness :
  set_angles (reader_of (scan 4)) (Some (SelInt (-1))) <> Ok (Some []) /\
  read (reader_of (scan 4)) four_frames (Some (SelInt (-1))) uint16 true
  = read (reader_of (scan 4)) four_frames (Some (SelInt (-1))) uint16 false.
Proof.
  assert (H : set_angles (reader_of (scan 4)) (Some (SelInt (-1)))
              <> Ok (Some [])) by discriminate.
  split; [exact H |].
  exact (read_paths_agree (reader_of (scan 4)) four_frames
           (Some (SelInt (-1))) uint16 H).
Defined.

(** ** The central-slice loader *)

Lemma items_length (sz : nat) (count : nat) :
  forall bs, (count * sz <= length bs)%nat -> length (items sz count bs) = count.
Proof.
  induction count as [| c IH]; intros bs H; simpl; [reflexivity |].
  simpl in H.
  replace (length bs <? sz)%nat with false
    by (symmetry; apply Nat.ltb_ge; lia).
  simpl. f_equal. apply IH. rewrite length_skipn. lia.
Qed.

(** Reading [count] items looks at the first [count * sz] bytes only. *)
Lemma items_window (sz : nat) (count : nat) :
  forall bs, (count * sz <= length bs)%nat ->
             items sz count bs = items sz count (firstn (count * sz) bs).
Proof.
  induction count as [| c IH]; intros bs H; simpl; [reflexivity |].
  simpl in H.
  replace (length bs <? sz)%nat with false
    by (symmetry; apply Nat.ltb_ge; lia).
  replace (length (firstn (sz + c * sz) bs) <? sz)%nat with false
    by (symmetry; apply Nat.ltb_ge; rewrite length_firstn; lia).
  rewrite firstn_firstn, Nat.min_l by lia.
  f_equal. rewrite skipn_firstn_comm.
  replace (sz + c * sz - sz)%nat with (c * sz)%nat by lia.
  apply IH. rewrite length_skipn. lia.
Qed.

(** The scanline read after the seek, for a file that holds it. *)
Lemma fromfile_scanline (dt : dtype) (offset count : nat)
    (content : list Byte.byte) :
  holds_scanline dt offset count content ->
  np_fromfile (skipn offset content) dt (Some count)
  = map (decode dt)
      (items (itemsize dt) count (scanline_bytes dt offset count content)) /\
  length (np_fromfile (skipn offset content) dt (Some count)) = count.
Proof.
  unfold holds_scanline, np_fromfile, scanline_bytes. intros H.
  assert (Hrest : (count * itemsize dt <= length (skipn offset content))%nat)
    by (rewrite length_skipn; lia).
  split.
  - rewrite <- items_window by exact Hrest. reflexivity.
  - rewrite length_map. apply items_length. exact Hrest.
Qed.

Lemma splice_length {A : Type} (dat row : list A) (n h k : nat) :
  length dat = (n * h)%nat -> (k < n)%nat -> length row = h ->
  length (firstn (k * h) dat ++ row ++ skipn ((k + 1) * h) dat) = (n * h)%nat.
Proof.
  intros Hd Hk Hr.
  rewrite !length_app, length_firstn, length_skipn, Hr, Hd.
  assert (E : exists t, n = (k + 1 + t)%nat) by (exists (n - k - 1)%nat; lia).
  destruct E as (t & ->). lia.
Qed.

Lemma splice_same {A : Type} (dat row : list A) (n h k : nat) :
  length dat = (n * h)%nat -> (k < n)%nat -> length row = h ->
  firstn h (skipn (k * h)
              (firstn (k * h) dat ++ row ++ skipn ((k + 1) * h) dat)) = row.
Proof.
  intros Hd Hk Hr.
  assert (E : exists t, n = (k + 1 + t)%nat) by (exists (n - k - 1)%nat; lia).
  destruct E as (t & ->).
  assert (Hpre : length (firstn (k * h) dat) = (k * h)%nat)
    by (rewrite length_firstn, Hd; lia).
  rewrite skipn_app, Hpre, Nat.sub_diag.
  rewrite skipn_all2 by lia. simpl.
  rewrite firstn_app, Hr, Nat.sub_diag, firstn_all2 by lia.
  simpl. apply app_nil_r.
Qed.

Lemma splice_other {A : Type} (dat row : list A) (n h k j : nat) :
  length dat = (n * h)%nat -> (k < n)%nat -> length row = h -> j <> k ->
  firstn h (skipn (j * h)
              (firstn (k * h) dat ++ row ++ skipn ((k + 1) * h) dat))
  = firstn h (skipn (j * h) dat).
Proof.
  intros Hd Hk Hr Hj.
  assert (E : exists t, n = (k + 1 + t)%nat) by (exists (n - k - 1)%nat; lia).
  destruct E as (t & ->).
  assert (Hpre : length (firstn (k * h) dat) = (k * h)%nat)
    by (rewrite length_firstn, Hd; lia).
  destruct (Nat.lt_ge_cases j k) as [Hlt | Hge].
  - assert (E : exists u, k = (j + 1 + u)%nat) by (exists (k - j - 1)%nat; lia).
    destruct E as (u & ->).
    rewrite skipn_app, Hpre.
    replace (j * h - (j + 1 + u) * h)%nat with 0%nat by lia.
    rewrite firstn_app, length_skipn, Hpre.
    replace (h - ((j + 1 + u) * h - j * h))%nat with 0%nat by lia.
    simpl skipn. rewrite firstn_0, app_nil_r.
    rewrite skipn_firstn_comm, firstn_firstn. f_equal. lia.
  - assert (E : exists u, j = (k + 1 + u)%nat) by (exists (j - k - 1)%nat; lia).
    destruct E as (u & ->).
    rewrite app_assoc, skipn_app, length_app, Hpre, Hr.
    rewrite skipn_all2 by (rewrite length_app, Hpre, Hr; lia).
    simpl app. rewrite skipn_skipn. f_equal. f_equal. lia.
Qed.

(** What a row assignment of [read_centre_slice] does when it succeeds:
    the row index is in range and the slot receives [row] itself when it
    has the slot's length. *)
Lemma np_setitem_row_inv {A : Type} (a a' : ndarray A) (n h k : nat)
    (row : list A) :
  shape a = [n; h] ->
  np_setitem a k (np_array1 row) = Ok a' ->
  (k < n)%nat /\
  exists put,
    length put = h /\ (length row = h -> put = row) /\
    a' = mk_ndarray [n; h]
           (firstn (k * h) (data a) ++ put ++ skipn ((k + 1) * h) (data a)).
Proof.
  intros Ha. unfold np_setitem. rewrite Ha.
  destruct (Nat.leb_spec n k) as [Hle | Hlt]; [discriminate |].
  simpl size_of. rewrite Nat.mul_1_r. simpl shape. simpl data.
  destruct (shape_eqb [length row] [h]) eqn:Hs.
  - apply shape_eqb_eq in Hs. injection Hs as Hs.
    intros H. injection H as <-. split; [exact Hlt |].
    exists row. split; [exact Hs |].
    split; [intros _; reflexivity | reflexivity].
  - destruct row as [| x [| y row]]; simpl; try discriminate.
    intros H. injection H as <-. split; [exact Hlt |].
    exists (repeat x h). split; [apply repeat_length |].
    split; [| reflexivity].
    simpl. intros E. subst h. rewrite shape_eqb_refl in Hs. discriminate Hs.
Qed.


(** The loop of [read_centre_slice]: the buffer keeps its shape, rows
    outside the files' range keep their content, and the row of each file
    that holds the scanline is that scanline. *)
Lemma centre_loop_inv (d : directory) (dt : dtype) (offset h n : nat)
    (files : list string) :
  forall (i : nat) (cs out : ndarray Z),
    shape cs = [n; h] -> length (data cs) = (n * h)%nat ->
    centre_loop d dt offset h i files cs = Ok out ->
    shape out = [n; h] /\ length (data out) = (n * h)%nat /\
    (files <> [] -> (i + length files <= n)%nat) /\
    (forall j, (j < i \/ i + length files <= j)%nat ->
               firstn h (skipn (j * h) (data out))
               = firstn h (skipn (j * h) (data cs))) /\
    (forall j name,
       nth_error files j = Some name ->
       exists content,
         open_rb d name = Ok content /\
         (holds_scanline dt offset h content ->
          firstn h (skipn ((i + j) * h) (data out))
          = np_fromfile (skipn offset content) dt (Some h))).
Proof.
  induction files as [| f files IH]; intros i cs out Hsh Hlen Hloop.
  - simpl in Hloop. injection Hloop as <-.
    repeat split; try assumption; try congruence.
    intros j name Hj. destruct j; discriminate Hj.
  - simpl in Hloop.
    bind_inv Hloop content Hopen. bind_inv Hloop cs' Hset.
    destruct (np_setitem_row_inv _ _ n h i _ Hsh Hset)
      as (Hi & put & Hput & Hrow & ->).
    pose proof (splice_length (data cs) put n h i Hlen Hi Hput) as Hlen'.
    destruct (IH (S i)
                (mk_ndarray [n; h]
                   (firstn (i * h) (data cs) ++ put
                    ++ skipn ((i + 1) * h) (data cs)))
                out eq_refl Hlen' Hloop)
      as (Hsh2 & Hlen2 & Hbound & Hkeep & Hrows).
    split; [exact Hsh2 |]. split; [exact Hlen2 |].
    split; [| split].
    + intros _. destruct files as [| g files]; simpl in *; [lia |].
      assert (X : (S i + S (length files) <= n)%nat)
        by (apply Hbound; discriminate).
      lia.
    + intros j Hj. simpl in Hj.
      rewrite Hkeep by lia. simpl data.
      apply (splice_other (data cs) put n h i j Hlen Hi Hput). lia.
    + intros j name Hj. destruct j as [| j]; simpl in Hj.
      * injection Hj as <-. exists content. split; [exact Hopen |].
        intros Hhold. rewrite Nat.add_0_r.
        rewrite Hkeep by lia. simpl data.
        rewrite (splice_same (data cs) put n h i Hlen Hi Hput).
        apply Hrow. apply fromfile_scanline. exact Hhold.
      * destruct (Hrows j name Hj) as (c & Hc & Hslot).
        exists c. split; [exact Hc |].
        replace (i + S j)%nat with (S i + j)%nat by lia. exact Hslot.
Qed.



Lemma slot_astype_rows (a : ndarray Z) (n h i : nat) :
  shape a = [n; h] ->
  slot (astype_float32 a) i
  = map float32_of_Z (firstn h (skipn (i * h) (data a))).
Proof.
  intros Ha. unfold slot, astype_float32. cbn [shape data]. rewrite Ha.
  cbn [tl size_of fold_right].
  rewrite Nat.mul_1_r, skipn_map, firstn_map. reflexivity.
Qed.

(** [read_centre_slice] reduced to its loop over the zero buffer. *)
Lemma read_centre_slice_inv (self : DiondoDataReader) (d : directory)
    (a : option selection) (dt : dtype) (out : AcquisitionData) :
  read_centre_slice self d a dt = Ok out ->
  exists filled,
    centre_loop d dt
      (Z.to_nat (snd (num_pixels (full_geometry self)) / 2
                 * fst (num_pixels (full_geometry self))
                 * Z.of_nat (itemsize dt)))
      (Z.to_nat (fst (num_pixels (full_geometry self)))) 0 (enumerate_raw d)
      (np_zeros [length (angles (full_geometry self));
                 Z.to_nat (fst (num_pixels (full_geometry self)))])
    = Ok filled /\
    out = mk_data (astype_float32 filled) (get_slice_centre (full_geometry self)).
Proof.
  unfold read_centre_slice, geometry_shape. rewrite Nat2Z.id.
  intros H. bind_inv H filled Hloop.
  injection H as <-. exists filled. split; [exact Hloop | reflexivity].
Qed.

Lemma np_zeros_rows (n h : nat) :
  shape (np_zeros [n; h]) = [n; h] /\
  length (data (np_zeros [n; h])) = (n * h)%nat.
Proof.
  unfold np_zeros. simpl. rewrite repeat_length, Nat.mul_1_r.
  split; reflexivity.
Qed.

(** C5: when [read_centre_slice] returns on a reader that has been set up,
    its array has one row per angle and [num_pixels_h] columns of float32
    values, and the row of file [i] of the enumeration is the
    [num_pixels_h] elements that start at byte offset
    [(num_pixels_v // 2) * num_pixels_h * itemsize] of that file; two
    files that agree on those bytes give the same row whatever else they
    contain. *)
Theorem read_centre_slice_rows (m : ScanMetadata) (self : DiondoDataReader)
    (d : directory) (a : option selection) (dt : dtype) (out : AcquisitionData) :
  _setup_geometry m = Ok self ->
  read_centre_slice self d a dt = Ok out ->
  let offset := Z.to_nat (num_pixels_v m / 2 * num_pixels_h m
                          * Z.of_nat (itemsize dt)) in
  let count := Z.to_nat (num_pixels_h m) in
  shape (array out) = [Z.to_nat (num_projections m); count] /\
  (forall i name,
     nth_error (enumerate_raw d) i = Some name ->
     exists content,
       open_rb d name = Ok content /\
       (holds_scanline dt offset count content ->
        slot (array out) i
        = map float32_of_Z
            (map (decode dt)
               (items (itemsize dt) count
                  (scanline_bytes dt offset count content))))) /\
  (forall d' out' i name name' content content',
     read_centre_slice self d' a dt = Ok out' ->
     nth_error (enumerate_raw d) i = Some name ->
     nth_error (enumerate_raw d') i = Some name' ->
     open_rb d name = Ok content ->
     open_rb d' name' = Ok content' ->
     holds_scanline dt offset count content ->
     holds_scanline dt offset count content' ->
     scanline_bytes dt offset count content
     = scanline_bytes dt offset count content' ->
     slot (array out) i = slot (array out') i).
Proof.
  intros Hsetup Hread offset count.
  pose proof (setup_geometry_angle_count m self Hsetup) as Hcount.
  apply setup_geometry_inv in Hsetup.
  destruct Hsetup as (_ & _ & _ & _ & _ & _ & _ & Hpix).
  assert (Hrows : forall d1 out1,
            read_centre_slice self d1 a dt = Ok out1 ->
            shape (array out1) = [Z.to_nat (num_projections m); count] /\
            forall i name,
              nth_error (enumerate_raw d1) i = Some name ->
              exists content,
                open_rb d1 name = Ok content /\
                (holds_scanline dt offset count content ->
                 slot (array out1) i
                 = map float32_of_Z
                     (map (decode dt)
                        (items (itemsize dt) count
                           (scanline_bytes dt offset count content))))).
  { intros d1 out1 H1. apply read_centre_slice_inv in H1.
    destruct H1 as (filled & Hloop & ->).
    rewrite Hpix, Hcount in Hloop. simpl fst in Hloop. simpl snd in Hloop.
    fold offset in Hloop. fold count in Hloop.
    destruct (np_zeros_rows (Z.to_nat (num_projections m)) count)
      as (Hzs & Hzl).
    destruct (centre_loop_inv _ _ _ _ _ _ _ _ _ Hzs Hzl Hloop)
      as (Hsh & _ & _ & _ & Hfiles).
    split; [simpl; exact Hsh |].
    intros i name Hi. destruct (Hfiles i name Hi) as (content & Hopen & Hrow).
    exists content. split; [exact Hopen |]. intros Hhold. simpl array.
    rewrite (slot_astype_rows _ _ _ _ Hsh).
    simpl in Hrow. rewrite (Hrow Hhold).
    destruct (fromfile_scanline dt offset count content Hhold) as (-> & _).
    reflexivity. }
  destruct (Hrows d out Hread) as (Hshape & Hmine).
  split; [exact Hshape |]. split; [exact Hmine |].
  intros d' out' i name name' content content' Hread' Hi Hi' Ho Ho' Hh Hh' Heq.
  destruct (Hmine i name Hi) as (c & Hc & Hrow).
  rewrite Ho in Hc. injection Hc as <-.
  destruct (Hrows d' out' Hread') as (_ & Htheirs).
  destruct (Htheirs i name' Hi') as (c' & Hc' & Hrow').
  rewrite Ho' in Hc'. injection Hc' as <-.
  rewrite (Hrow Hh), (Hrow' Hh'), Heq. reflexivity.
Qed.

Lemma read_centre_slice_rows_witness :
  _setup_geometry (scan 4) = Ok (reader_of (scan 4)) /\
  exists out,
    read_centre_slice (reader_of (scan 4)) four_frames None uint16 = Ok out /\
    shape (array out) = [4%nat; 2%nat].
Proof.
  split; [reflexivity |].
  eexists. split; [vm_compute; reflexivity |].
  apply (read_centre_slice_rows (scan 4) (reader_of (scan 4)) four_frames None
           uint16 _ eq_refl eq_refl).
Defined.



(** C7 on a directory without RAW files: [read] raises
    [FileNotFoundError], [read_centre_slice] enumerates the same (empty)
    file list and returns the zero buffer. *)
Theorem read_centre_slice_accepts_empty_directory :
  enumerate_raw [] = [] /\
  read (reader_of (scan 4)) [] None uint16 false = Raise FileNotFoundError /\
  read_centre_slice (reader_of (scan 4)) [] None uint16
  = Ok (mk_data (mk_ndarray [4%nat; 2%nat] (repeat (float32_of_Z 0) 8))
          (get_slice_centre (full_geometry (reader_of (scan 4))))).
Proof.
  split; [reflexivity |]. split; vm_compute; reflexivity.
Qed.

(** ** Missing inputs *)

(** C8: [read_metadata] on a path that is no existing file raises
    [FileNotFoundError], and so does [read], whatever its arguments, when
    no RAW file remains after the last one is dropped; the outcome is that
    error and no other. *)
Theorem missing_inputs_raise_FileNotFoundError :
  (forall ET_parse py_float py_int fs xml_file,
     fs xml_file = None ->
     read_metadata ET_parse py_float py_int fs xml_file
     = Raise FileNotFoundError) /\
  (forall self d a dt fread,
     enumerate_raw d = [] ->
     read self d a dt fread = Raise FileNotFoundError).
Proof.
  split.
  - intros ET_parse py_float py_int fs xml_file H.
    unfold read_metadata. rewrite H. reflexivity.
  - intros self d a dt fread H. unfold read. rewrite H. reflexivity.
Qed.

Lemma missing_inputs_raise_FileNotFoundError_witness :
  read_metadata (fun _ => None) (fun _ => None) (fun _ => None)
    (fun _ => None) "scan.xml" = Raise FileNotFoundError /\
  enumerate_raw [("p0000.raw"%string, frame_bytes 10)] = [] /\
  read (reader_of (scan 4)) [("p0000.raw"%string, frame_bytes 10)]
    (Some (SelInt 0)) uint16 true
  = Raise FileNotFoundError.
Proof.
  destruct missing_inputs_raise_FileNotFoundError as (Hxml & Hdir).
  split; [apply Hxml; reflexivity |].
  split; [reflexivity |]. apply Hdir. reflexivity.
Defined.

(** * Further properties of the reader *)

(** ** Slices and tuples in [set_angles] *)

Lemma adjust_bound_range (len step i : Z) :
  0 <= len ->
  (step < 0 -> -1 <= adjust_bound len step i <= len - 1) /\
  (0 < step -> 0 <= adjust_bound len step i <= len).
Proof.
  intros Hlen. unfold adjust_bound.
  destruct (i <? 0) eqn:Hi; [apply Z.ltb_lt in Hi | apply Z.ltb_ge in Hi].
  - destruct (i + len <? 0) eqn:Hi'; [apply Z.ltb_lt in Hi' | apply Z.ltb_ge in Hi'];
      destruct (step <? 0) eqn:Hs;
      [apply Z.ltb_lt in Hs | apply Z.ltb_ge in Hs
       | apply Z.ltb_lt in Hs | apply Z.ltb_ge in Hs]; split; lia.
  - destruct (len <=? i) eqn:Hi'; [apply Z.leb_le in Hi' | apply Z.leb_gt in Hi'];
      destruct (step <? 0) eqn:Hs;
      [apply Z.ltb_lt in Hs | apply Z.ltb_ge in Hs
       | apply Z.ltb_lt in Hs | apply Z.ltb_ge in Hs]; split; lia.
Qed.

Lemma slice_indices_range (s : slice) (len start stop step : Z) :
  0 <= len ->
  slice_indices s len = Ok (start, stop, step) ->
  (step < 0 /\ -1 <= start <= len - 1 /\ -1 <= stop <= len - 1) \/
  (0 < step /\ 0 <= start <= len /\ 0 <= stop <= len).
Proof.
  intros Hlen. unfold slice_indices. intros H.
  bind_inv H st Hst.
  destruct (_ =? 0) eqn:Hz; [discriminate |]. apply Z.eqb_neq in Hz.
  bind_inv H a Ha. bind_inv H b Hb. injection H as <- <- <-.
  set (step := match st with None => 1 | Some k => k end) in *.
  assert (Ha' := fun i => adjust_bound_range len step i Hlen).
  destruct (Z.lt_trichotomy step 0) as [Hneg | [E | Hpos]]; [| congruence |].
  - left. replace (step <? 0) with true by (symmetry; apply Z.ltb_lt; lia).
    split; [exact Hneg |].
    split; [destruct a as [i |] | destruct b as [i |]];
      try (apply Ha'; exact Hneg); lia.
  - right. replace (step <? 0) with false by (symmetry; apply Z.ltb_ge; lia).
    split; [exact Hpos |].
    split; [destruct a as [i |] | destruct b as [i |]];
      try (apply Ha'; exact Hpos); lia.
Qed.

(** The elements a slice selects from [np.arange(len)] are indices of that
    array, and no index is selected twice. *)
Lemma arange_getslice_range (len : Z) (s : slice) (indices : list Z) :
  arange_getslice len s = Ok indices ->
  Forall (fun i => 0 <= i < len) indices /\ NoDup indices.
Proof.
  unfold arange_getslice. intros H. bind_inv H t Ht.
  destruct t as ((start, stop), step). injection H as <-.
  apply slice_indices_range in Ht; [| lia].
  split.
  - apply Forall_forall. intros i Hi. apply in_map_iff in Hi.
    destruct Hi as (k & <- & Hk). apply in_seq in Hk.
    unfold slice_length in Hk.
    destruct Ht as [(Hs & Ha & Hb) | (Hs & Ha & Hb)].
    + replace (step <? 0) with true in Hk by (symmetry; apply Z.ltb_lt; lia).
      destruct (stop <? start) eqn:Hlt;
        [apply Z.ltb_lt in Hlt | simpl in Hk; lia].
      assert (Hq : Z.of_nat k <= (start - stop - 1) / - step) by lia.
      assert (Hm : - step * ((start - stop - 1) / - step) <= start - stop - 1)
        by (apply Z.mul_div_le; lia).
      nia.
    + replace (step <? 0) with false in Hk by (symmetry; apply Z.ltb_ge; lia).
      destruct (start <? stop) eqn:Hlt;
        [apply Z.ltb_lt in Hlt | simpl in Hk; lia].
      assert (Hq : Z.of_nat k <= (stop - start - 1) / step) by lia.
      assert (Hm : step * ((stop - start - 1) / step) <= stop - start - 1)
        by (apply Z.mul_div_le; lia).
      nia.
  - apply Finite.Injective_map_NoDup; [| apply seq_NoDup].
    intros k1 k2 E.
    assert (Hs : step <> 0) by (destruct Ht as [(? & _) | (? & _)]; lia).
    nia.
Qed.

(** On a reader that has been set up, a tuple or slice selection that
    resolves gives distinct indices, each in [0, num_projections), so the
    angle subset of such a selection can always be taken. *)
Theorem set_angles_slice_within_scan (m : ScanMetadata) (self : DiondoDataReader)
    (sel : selection) (indices : list Z) :
  _setup_geometry m = Ok self ->
  (exists t, sel = SelTuple t) \/ (exists s, sel = SelSlice s) ->
  set_angles self (Some sel) = Ok (Some indices) ->
  Forall (fun i => 0 <= i < num_projections m) indices /\
  NoDup indices /\
  exists subset, np_take (angles (full_geometry self)) indices = Ok subset.
Proof.
  intros Hsetup Hsel H.
  pose proof (setup_geometry_angle_count m self Hsetup) as Hcount.
  apply setup_geometry_inv in Hsetup.
  destruct Hsetup as (Hn & _ & _ & Hmeta & _).
  assert (Hr : exists s, arange_getslice (num_projections m) s = Ok indices).
  { unfold set_angles in H. rewrite Hmeta in H.
    destruct Hsel as [(t & ->) | (s & ->)].
    - bind_inv H s Hs. bind_inv H ix Hix. injection H as <-.
      exists s. exact Hix.
    - bind_inv H ix Hix. injection H as <-. exists s. exact Hix. }
  destruct Hr as (s & Hs). apply arange_getslice_range in Hs.
  destruct Hs as (Hrange & Hnd).
  split; [exact Hrange |]. split; [exact Hnd |].
  apply mapM_total. intros i Hi. apply getitem_in_range.
  rewrite Forall_forall in Hrange. specialize (Hrange i Hi). lia.
Qed.

Lemma set_angles_slice_within_scan_witness :
  _setup_geometry (scan 4) = Ok (reader_of (scan 4)) /\
  set_angles (reader_of (scan 4))
    (Some (SelTuple [PyInt (-3); PyNone; PyInt 2])) = Ok (Some [1; 3]) /\
  Forall (fun i => 0 <= i < 4) [1; 3].
Proof.
  split; [reflexivity |]. split; [reflexivity |].
  apply (set_angles_slice_within_scan (scan 4) (reader_of (scan 4))
           (SelTuple [PyInt (-3); PyNone; PyInt 2]) [1; 3] eq_refl).
  - left. eexists. reflexivity.
  - reflexivity.
Defined.

(** A tuple that is no slice specification and a slice with a zero step or
    a float bound are rejected; in particular a tuple of two angle values
    is read as slice bounds, not as angles.  With files present, [read]
    passes the failure of [set_angles] on as it is. *)
Theorem set_angles_rejects_malformed (self : DiondoDataReader) :
  (forall t, (length t = 0 \/ 3 < length t)%nat ->
     set_angles self (Some (SelTuple t)) = Raise TypeError) /\
  (forall q1 q2,
     set_angles self (Some (SelTuple [PyFloat q1; PyFloat q2]))
     = Raise TypeError) /\
  (forall a b,
     set_angles self (Some (SelSlice (mk_slice a b (PyInt 0))))
     = Raise ValueError) /\
  (forall a b c q,
     c <> PyInt 0 ->
     set_angles self (Some (SelSlice (mk_slice (PyFloat q) b c)))
     = Raise TypeError /\
     set_angles self (Some (SelSlice (mk_slice a (PyFloat q) c)))
     = Raise TypeError) /\
  (forall d sel dt fread e,
     enumerate_raw d <> [] ->
     set_angles self (Some sel) = Raise e ->
     read self d (Some sel) dt fread = Raise e).
Proof.
  split; [| split; [| split; [| split]]].
  - intros t Ht. unfold set_angles.
    destruct t as [| a [| b [| c [| x t]]]]; simpl in *; try reflexivity; lia.
  - intros q1 q2. reflexivity.
  - intros a b. reflexivity.
  - intros a b c q Hc. unfold set_angles, arange_getslice, slice_indices.
    destruct c as [| z | q']; simpl.
    + split; [reflexivity | destruct a; reflexivity].
    + destruct (z =? 0) eqn:Hz.
      * apply Z.eqb_eq in Hz. subst z. congruence.
      * split; [reflexivity | destruct a; reflexivity].
    + split; reflexivity.
  - intros d sel dt fread e Hne He. rewrite read_unfold.
    replace (length (enumerate_raw d) =? 0)%nat with false.
    + rewrite He. reflexivity.
    + symmetry. apply Nat.eqb_neq. intros E. apply Hne.
      apply length_zero_iff_nil. exact E.
Qed.

Lemma set_angles_rejects_malformed_witness :
  set_angles (reader_of (scan 4)) (Some (SelTuple [])) = Raise TypeError /\
  set_angles (reader_of (scan 4))
    (Some (SelSlice (mk_slice PyNone (PyFloat (90 # 1)) PyNone)))
  = Raise TypeError /\
  read (reader_of (scan 4)) four_frames
    (Some (SelSlice (mk_slice PyNone PyNone (PyInt 0)))) uint16 true
  = Raise ValueError.
Proof.
  destruct (set_angles_rejects_malformed (reader_of (scan 4)))
    as (Htuple & _ & Hzero & Hfloat & Hread).
  split; [apply Htuple; left; reflexivity |].
  split; [apply (Hfloat PyNone PyNone PyNone); discriminate |].
  apply Hread; [vm_compute; discriminate | apply Hzero].
Defined.

Lemma arange_getslice_full (n : Z) :
  arange_getslice n full_slice = Ok (np_arange n).
Proof.
  unfold arange_getslice, full_slice, slice_indices, np_arange. simpl.
  unfold slice_length. simpl.
  destruct (0 <? Z.max 0 n) eqn:E.
  - apply Z.ltb_lt in E.
    replace (Z.to_nat ((Z.max 0 n - 0 - 1) / 1 + 1)) with (Z.to_nat n)
      by (rewrite Z.div_1_r; lia).
    f_equal. apply map_ext. intros k. lia.
  - apply Z.ltb_ge in E. replace (Z.to_nat n) with 0%nat by lia. reflexivity.
Qed.

(** The full slice [:] selects every projection of the scan, [None] every
    remaining file: the two calls of [read] agree when there are as many
    files as projections, and with fewer files the full slice raises
    [IndexError]. *)
Theorem read_full_slice_and_None (self : DiondoDataReader) (d : directory)
    (dt : dtype) (fread : bool) :
  set_angles self (Some (SelSlice full_slice))
  = Ok (Some (np_arange (num_projections (meta self)))) /\
  (Z.of_nat (length (enumerate_raw d)) = num_projections (meta self) ->
   read self d (Some (SelSlice full_slice)) dt fread = read self d None dt fread) /\
  (enumerate_raw d <> [] ->
   Z.of_nat (length (enumerate_raw d)) < num_projections (meta self) ->
   read self d (Some (SelSlice full_slice)) dt fread = Raise IndexError).
Proof.
  assert (Hres : set_angles self (Some (SelSlice full_slice))
                 = Ok (Some (np_arange (num_projections (meta self))))).
  { unfold set_angles. rewrite arange_getslice_full. reflexivity. }
  split; [exact Hres |]. split.
  - intros E. rewrite !read_unfold, Hres, E. reflexivity.
  - intros Hne Hlt. rewrite read_unfold.
    replace (length (enumerate_raw d) =? 0)%nat with false.
    + rewrite Hres. simpl bind at 1. simpl bind at 1.
      rewrite mapM_getitem_out_of_range; [reflexivity |].
      exists (Z.of_nat (length (enumerate_raw d))). split; [| lia].
      unfold np_arange. apply in_map. apply in_seq. lia.
    + symmetry. apply Nat.eqb_neq. intros E. apply Hne.
      apply length_zero_iff_nil. exact E.
Qed.

Lemma read_full_slice_and_None_witness :
  Z.of_nat (length (enumerate_raw four_frames))
  = num_projections (meta (reader_of (scan 3))) /\
  read (reader_of (scan 3)) four_frames (Some (SelSlice full_slice)) uint16 false
  = read (reader_of (scan 3)) four_frames None uint16 false /\
  read (reader_of (scan 4)) four_frames (Some (SelSlice full_slice)) uint16 false
  = Raise IndexError.
Proof.
  split; [reflexivity |]. split.
  - apply (read_full_slice_and_None (reader_of (scan 3)) four_frames uint16
             false). reflexivity.
  - apply (read_full_slice_and_None (reader_of (scan 4)) four_frames uint16
             false); vm_compute; [discriminate | reflexivity].
Defined.

(** ** Geometry and metadata *)







Lemma field_Ok_inv {A : Type} (conv : string -> option A)
    (parent : option element) (t : string) (v : A) :
  field conv parent t = Ok v ->
  exists p c s,
    parent = Some p /\ find_child p t = Some c /\ text_of c = Some s /\
    conv s = Some v.
Proof.
  unfold field. destruct parent as [p |]; [| discriminate].
  destruct (find_child p t) as [c |] eqn:Ec; [| discriminate].
  destruct (text_of c) as [s |] eqn:Es; [| discriminate].
  destruct (conv s) as [w |] eqn:E; [| discriminate].
  intros H. injection H as <-. exists p, c, s.
  split; [reflexivity |]. split; [exact Ec |]. split; [exact Es | exact E].
Qed.

(** [set_up] end to end: when it returns, the document was found and
    parsed, it holds a [Recon] element whose [ProjectionCount],
    [ProjectionDimX] and [ProjectionDimY] texts are the reader's projection
    count and its horizontal and vertical pixel counts, and the full
    geometry has that panel and one angle per projection.  A document that
    does not parse raises [ParseError], one without [Geometrie] raises
    [AttributeError], and a negative projection count in otherwise valid
    metadata raises [ValueError]. *)
Theorem set_up_outcomes (ET_parse : list Byte.byte -> option element)
    (py_float : string -> option Q) (py_int : string -> option Z)
    (fs : string -> option (list Byte.byte)) (xml_file : string) :
  (forall r,
     set_up ET_parse py_float py_int fs xml_file = Ok r ->
     exists content root recon,
       fs xml_file = Some content /\ ET_parse content = Some root /\
       find_child root "Recon" = Some recon /\
       field py_int (Some recon) "ProjectionCount"
       = Ok (num_projections (meta r)) /\
       field py_int (Some recon) "ProjectionDimX" = Ok (num_pixels_h (meta r)) /\
       field py_int (Some recon) "ProjectionDimY" = Ok (num_pixels_v (meta r)) /\
       num_pixels (full_geometry r)
       = (num_pixels_h (meta r), num_pixels_v (meta r)) /\
       length (angles (full_geometry r))
       = Z.to_nat (num_projections (meta r)) /\
       0 <= num_projections (meta r)) /\
  (forall content,
     fs xml_file = Some content -> ET_parse content = None ->
     set_up ET_parse py_float py_int fs xml_file = Raise ParseError) /\
  (forall content root,
     fs xml_file = Some content -> ET_parse content = Some root ->
     find_child root "Geometrie" = None ->
     set_up ET_parse py_float py_int fs xml_file = Raise AttributeError) /\
  (forall m,
     read_metadata ET_parse py_float py_int fs xml_file = Ok m ->
     num_projections m < 0 ->
     set_up ET_parse py_float py_int fs xml_file = Raise ValueError).
Proof.
  split; [| split; [| split]].
  - intros r H. unfold set_up in H. bind_inv H m Hm.
    pose proof (setup_geometry_angle_count m r H) as Hcount.
    apply setup_geometry_inv in H.
    destruct H as (Hn & _ & _ & Hmeta & _ & _ & _ & Hpix).
    unfold read_metadata in Hm.
    destruct (fs xml_file) as [content |] eqn:Hfs; [| discriminate].
    destruct (ET_parse content) as [root |] eqn:Hparse; [| discriminate].
    bind_inv Hm sdd Hsdd. bind_inv Hm sod Hsod. bind_inv Hm odd Hodd.
    bind_inv Hm n Hcnt. bind_inv Hm h Hh. bind_inv Hm v Hv.
    bind_inv Hm ph Hph. bind_inv Hm pv Hpv. injection Hm as <-.
    destruct (field_Ok_inv _ _ _ _ Hcnt) as (recon & c & s & Hrecon & _).
    rewrite Hrecon in Hcnt, Hh, Hv.
    exists content, root, recon. rewrite Hmeta.
    cbn [num_projections num_pixels_h num_pixels_v].
    split; [reflexivity |]. split; [exact Hparse |].
    split; [exact Hrecon |]. split; [exact Hcnt |]. split; [exact Hh |].
    split; [exact Hv |]. split; [exact Hpix |]. split; [exact Hcount | exact Hn].
  - intros content Hfs Hparse. unfold set_up, read_metadata.
    rewrite Hfs, Hparse. reflexivity.
  - intros content root Hfs Hparse Hgeom. unfold set_up, read_metadata.
    rewrite Hfs, Hparse, Hgeom. reflexivity.
  - intros m Hm Hneg. unfold set_up. rewrite Hm. simpl bind.
    unfold _setup_geometry, set_panel, np_linspace.
    destruct (_ || _); [reflexivity |]. simpl bind.
    replace (num_projections m <? 0) with true
      by (symmetry; apply Z.ltb_lt; exact Hneg).
    reflexivity.
Qed.

Lemma set_up_outcomes_witness :
  exists r,
    set_up example_parse example_float example_int example_fs "scan.xml" = Ok r /\
    num_pixels (full_geometry r) = (2, 2) /\
    length (angles (full_geometry r)) = 4%nat.
Proof.
  eexists. split; [vm_compute; reflexivity |].
  destruct (set_up_outcomes example_parse example_float example_int example_fs
              "scan.xml") as (Hok & _).
  destruct (Hok _ eq_refl)
    as (content & root & recon & _ & _ & _ & _ & _ & _ & Hpix & Hlen & _).
  split; [exact Hpix | exact Hlen].
Defined.

(** ** Files of the wrong size *)

Lemma mapM_getitem_In {A : Type} (l : list A) (indices : list Z)
    (selected : list A) :
  mapM (getitem l) indices = Ok selected ->
  forall x, In x selected -> In x l.
Proof.
  intros H. apply mapM_Forall2 in H.
  induction H as [| i y ix sel Hy _ IH]; intros x Hx; [destruct Hx |].
  destruct Hx as [<- | Hx]; [| apply IH; exact Hx].
  revert Hy. unfold getitem.
  destruct (_ && _); [| discriminate].
  destruct (nth_error _ _) eqn:E; [| discriminate].
  intros H. injection H as <-. eapply nth_error_In. exact E.
Qed.

Lemma read_single_ill_sized (d : directory) (raw_file : string)
    (height width : Z) (dt : dtype) (content : list Byte.byte) :
  open_rb d raw_file = Ok content ->
  ~ holds_frame dt (Z.to_nat height) (Z.to_nat width) content ->
  _read_single_raw_file d raw_file height width dt = Raise ValueError.
Proof.
  unfold _read_single_raw_file, np_reshape, np_array1, holds_frame.
  intros -> H. simpl. rewrite Nat.mul_1_r.
  destruct (Nat.eqb_spec (length (np_fromfile content dt None))
              (Z.to_nat height * Z.to_nat width)); [contradiction | reflexivity].
Qed.

(** Reading the frames of listed files fails for the first file of the
    wrong size, with [ValueError]. *)
Lemma read_frames_ill_sized (d : directory) (height width : Z) (dt : dtype)
    (files : list string) (name : string) (content : list Byte.byte) :
  (forall f, In f files -> In f (map fst d)) ->
  In name files ->
  open_rb d name = Ok content ->
  ~ holds_frame dt (Z.to_nat height) (Z.to_nat width) content ->
  mapM (fun f => _read_single_raw_file d f height width dt) files
  = Raise ValueError.
Proof.
  intros Hlisted Hin Hopen Hbad.
  induction files as [| f files IH]; [destruct Hin |]. simpl.
  destruct (open_rb_listed d f (Hlisted f (or_introl eq_refl))) as (c & Hc).
  destruct (Nat.eq_dec (length (np_fromfile c dt None))
              (Z.to_nat height * Z.to_nat width)) as [Hgood | Hwrong].
  - rewrite (read_single_intro d f height width dt c Hc Hgood). simpl.
    rewrite IH; [reflexivity | |].
    + intros g Hg. apply Hlisted. right. exact Hg.
    + destruct Hin as [-> | Hin]; [| exact Hin].
      rewrite Hopen in Hc. injection Hc as <-. contradiction.
  - rewrite (read_single_ill_sized d f height width dt c Hc Hwrong).
    reflexivity.
Qed.

(** [read] returns no partial volume: when one of the selected files does
    not hold exactly [num_pixels_v * num_pixels_h] elements, the call
    raises [ValueError] on either path, whatever the other files hold. *)
Theorem read_rejects_ill_sized_file (self : DiondoDataReader) (d : directory)
    (a : option selection) (dt : dtype) (fread : bool) (indices : list Z)
    (selected : list string) (name : string) (content : list Byte.byte) :
  enumerate_raw d <> [] ->
  match a with
  | None => indices = np_arange (Z.of_nat (length (enumerate_raw d)))
  | Some _ => set_angles self a = Ok (Some indices)
  end ->
  mapM (getitem (enumerate_raw d)) indices = Ok selected ->
  In name selected ->
  open_rb d name = Ok content ->
  ~ holds_frame dt (Z.to_nat (num_pixels_v (meta self)))
      (Z.to_nat (num_pixels_h (meta self))) content ->
  read self d a dt fread = Raise ValueError.
Proof.
  intros Hne Hres Hsel Hin Hopen Hbad. rewrite read_unfold.
  replace (length (enumerate_raw d) =? 0)%nat with false.
  - assert (E : match a with
                | None => Ok (Some (np_arange
                                      (Z.of_nat (length (enumerate_raw d)))))
                | Some _ => set_angles self a
                end = Ok (Some indices)).
    { destruct a; [exact Hres | rewrite Hres; reflexivity]. }
    rewrite E. simpl bind at 1. simpl bind at 1. rewrite Hsel. simpl bind at 1.
    rewrite (read_frames_ill_sized d _ _ dt selected name content);
      try assumption; [reflexivity |].
    intros f Hf. apply enumerate_raw_listed.
    apply (mapM_getitem_In _ _ _ Hsel). exact Hf.
  - symmetry. apply Nat.eqb_neq. intros E. apply Hne.
    apply length_zero_iff_nil. exact E.
Qed.

Lemma read_rejects_ill_sized_file_witness :
  read (reader_of (scan 4))
    (("p0000.raw", frame_bytes 10) :: ("p0001.raw", [Byte.x01; Byte.x00])
     :: ("p0002.raw", frame_bytes 30) :: nil)%string
    None uint16 true
  = Raise ValueError.
Proof.
  apply (read_rejects_ill_sized_file (reader_of (scan 4)) _ None uint16 true
           [0; 1] ["p0000.raw"; "p0001.raw"]%string "p0001.raw"%string
           [Byte.x01; Byte.x00]).
  - vm_compute. discriminate.
  - reflexivity.
  - reflexivity.
  - right. left. reflexivity.
  - reflexivity.
  - vm_compute. discriminate.
Defined.

(** ** The directory listing *)

Lemma read_single_same_file (d d' : directory) (raw_file : string)
    (height width : Z) (dt : dtype) :
  open_rb d raw_file = open_rb d' raw_file ->
  _read_single_raw_file d raw_file height width dt
  = _read_single_raw_file d' raw_file height width dt.
Proof. intros H. unfold _read_single_raw_file. rewrite H. reflexivity. Qed.

(** [read] sees a directory through the enumeration of its RAW files and
    the content of the enumerated files only. *)
Lemma read_same_files (self : DiondoDataReader) (d d' : directory)
    (a : option selection) (dt : dtype) (fread : bool) :
  enumerate_raw d = enumerate_raw d' ->
  (forall name, In name (enumerate_raw d) -> open_rb d name = open_rb d' name) ->
  read self d a dt fread = read self d' a dt fread.
Proof.
  intros Henum Hopen. rewrite !read_unfold, <- Henum.
  destruct (length (enumerate_raw d) =? 0)%nat; [reflexivity |].
  destruct (match a with None => _ | Some _ => _ end) as [resolved | e];
    simpl; [| reflexivity].
  destruct resolved as [indices |]; simpl; [| reflexivity].
  destruct (mapM (getitem (enumerate_raw d)) indices) as [selected | e] eqn:Hsel;
    simpl; [| reflexivity].
  rewrite (mapM_ext
             (fun f => _read_single_raw_file d f (num_pixels_v (meta self))
                         (num_pixels_h (meta self)) dt)
             (fun f => _read_single_raw_file d' f (num_pixels_v (meta self))
                         (num_pixels_h (meta self)) dt) selected).
  - reflexivity.
  - intros f Hf. apply read_single_same_file. apply Hopen.
    apply (mapM_getitem_In _ _ _ Hsel). exact Hf.
Qed.

Lemma centre_loop_same_files (d d' : directory) (dt : dtype) (offset count : nat)
    (files : list string) :
  (forall name, In name files -> open_rb d name = open_rb d' name) ->
  forall i cs,
    centre_loop d dt offset count i files cs
    = centre_loop d' dt offset count i files cs.
Proof.
  induction files as [| f files IH]; intros Hopen i cs; simpl; [reflexivity |].
  rewrite <- (Hopen f (or_introl eq_refl)).
  destruct (open_rb d f) as [content | e]; simpl; [| reflexivity].
  destruct (np_setitem cs i _) as [cs' | e]; simpl; [| reflexivity].
  apply IH. intros name Hin. apply Hopen. right. exact Hin.
Qed.

Lemma read_centre_slice_same_files (self : DiondoDataReader) (d d' : directory)
    (a : option selection) (dt : dtype) :
  enumerate_raw d = enumerate_raw d' ->
  (forall name, In name (enumerate_raw d) -> open_rb d name = open_rb d' name) ->
  read_centre_slice self d a dt = read_centre_slice self d' a dt.
Proof.
  intros Henum Hopen. unfold read_centre_slice.
  destruct (geometry_shape (full_geometry self)) as ((n & v) & h).
  rewrite <- Henum.
  rewrite (centre_loop_same_files d d' dt _ _ (enumerate_raw d) Hopen).
  reflexivity.
Qed.

Lemma enumerate_raw_matches (d : directory) (name : string) :
  In name (enumerate_raw d) -> matches_raw name = true.
Proof.
  intros H. destruct (glob_raw d) as [| g gs] eqn:E.
  - unfold enumerate_raw, sorted in H. rewrite E in H. destruct H.
  - destruct (enumerate_raw_drops_last d) as (x & Hx); [rewrite E; discriminate |].
    assert (Hs : In name (sorted (glob_raw d))).
    { rewrite Hx. apply in_or_app. left. exact H. }
    apply (Permutation_in _ (Permutation_sym (sorted_permutation _))) in Hs.
    unfold glob_raw in Hs. apply filter_In in Hs. apply Hs.
Qed.

Lemma glob_raw_raw_entries (d : directory) : glob_raw (raw_entries d) = glob_raw d.
Proof.
  unfold glob_raw, raw_entries.
  induction d as [| e d IH]; simpl; [reflexivity |].
  destruct (matches_raw (fst e)) eqn:E; simpl; rewrite ?E, IH; reflexivity.
Qed.

Lemma open_rb_raw_entries (d : directory) (name : string) :
  matches_raw name = true -> open_rb (raw_entries d) name = open_rb d name.
Proof.
  intros Hm. unfold open_rb, raw_entries.
  induction d as [| e d IH]; simpl; [reflexivity |].
  destruct (String.eqb_spec (fst e) name) as [E | E].
  - rewrite E, Hm. simpl. rewrite <- E, String.eqb_refl. reflexivity.
  - destruct (matches_raw (fst e)); simpl.
    + apply String.eqb_neq in E. rewrite E. exact IH.
    + exact IH.
Qed.

(** Entries that the pattern [*.raw] does not match (other extensions,
    hidden files) have no influence on either loader: the outcome is the
    one on the directory without them. *)
Theorem loaders_ignore_other_entries (self : DiondoDataReader) (d : directory)
    (a : option selection) (dt : dtype) (fread : bool) :
  read self (raw_entries d) a dt fread = read self d a dt fread /\
  read_centre_slice self (raw_entries d) a dt = read_centre_slice self d a dt.
Proof.
  assert (Henum : enumerate_raw (raw_entries d) = enumerate_raw d)
    by (unfold enumerate_raw; rewrite glob_raw_raw_entries; reflexivity).
  assert (Hopen : forall name, In name (enumerate_raw (raw_entries d)) ->
                    open_rb (raw_entries d) name = open_rb d name).
  { intros name Hin. apply open_rb_raw_entries.
    apply (enumerate_raw_matches (raw_entries d)). exact Hin. }
  split.
  - apply read_same_files; assumption.
  - apply read_centre_slice_same_files; assumption.
Qed.

Lemma ascending_permutation_eq (l1 : list string) :
  forall l2,
    StronglySorted (fun a b => String.leb a b = true) l1 ->
    StronglySorted (fun a b => String.leb a b = true) l2 ->
    Permutation l1 l2 -> l1 = l2.
Proof.
  induction l1 as [| a t1 IH]; intros l2 H1 H2 Hp.
  - apply Permutation_nil in Hp. congruence.
  - destruct l2 as [| b t2].
    + apply Permutation_sym, Permutation_nil in Hp. discriminate Hp.
    + apply StronglySorted_inv in H1. destruct H1 as (Ht1 & Ha).
      apply StronglySorted_inv in H2. destruct H2 as (Ht2 & Hb).
      rewrite Forall_forall in Ha, Hb.
      assert (E : a = b).
      { assert (Hab : In a (b :: t2))
          by (apply (Permutation_in _ Hp); left; reflexivity).
        assert (Hba : In b (a :: t1))
          by (apply (Permutation_in _ (Permutation_sym Hp)); left; reflexivity).
        destruct Hab as [Hab | Hab]; [congruence |].
        destruct Hba as [Hba | Hba]; [congruence |].
        apply String.leb_antisym; [apply Ha | apply Hb]; assumption. }
      subst b. f_equal. apply IH; try assumption.
      apply Permutation_cons_inv in Hp. exact Hp.
Qed.

Lemma filter_permutation {A : Type} (f : A -> bool) (l l' : list A) :
  Permutation l l' -> Permutation (filter f l) (filter f l').
Proof.
  induction 1 as [| x l l' _ IH | x y l | l l' l'' _ IH1 _ IH2]; simpl.
  - constructor.
  - destruct (f x); [constructor |]; exact IH.
  - destruct (f x), (f y); try apply Permutation_refl. constructor.
  - eapply Permutation_trans; eassumption.
Qed.

Lemma sorted_of_permutation (l l' : list string) :
  Permutation l l' -> sorted l = sorted l'.
Proof.
  intros Hp. apply ascending_permutation_eq; try apply sorted_ascending.
  eapply Permutation_trans; [apply Permutation_sym, sorted_permutation |].
  eapply Permutation_trans; [exact Hp | apply sorted_permutation].
Qed.

Lemma open_rb_entry (d : directory) (name : string) (content : list Byte.byte) :
  NoDup (map fst d) -> In (name, content) d -> open_rb d name = Ok content.
Proof.
  unfold open_rb. induction d as [| e d IH]; intros Hnd Hin; [destruct Hin |].
  simpl in *. inversion Hnd as [| x xs Hx Hnd']; subst.
  destruct Hin as [-> | Hin].
  - simpl. rewrite String.eqb_refl. reflexivity.
  - destruct (String.eqb_spec (fst e) name) as [E | E].
    + exfalso. apply Hx. rewrite E.
      apply in_map_iff. exists (name, content). split; [reflexivity | exact Hin].
    + apply IH; assumption.
Qed.

(** The order in which the operating system lists the directory has no
    influence on either loader, the file names being distinct. *)
Theorem loaders_ignore_listing_order (self : DiondoDataReader)
    (d d' : directory) (a : option selection) (dt : dtype) (fread : bool) :
  NoDup (map fst d) ->
  Permutation d d' ->
  read self d a dt fread = read self d' a dt fread /\
  read_centre_slice self d a dt = read_centre_slice self d' a dt.
Proof.
  intros Hnd Hp.
  assert (Hnd' : NoDup (map fst d')).
  { eapply Permutation_NoDup; [| exact Hnd]. apply Permutation_map. exact Hp. }
  assert (Henum : enumerate_raw d = enumerate_raw d').
  { unfold enumerate_raw. f_equal. apply sorted_of_permutation.
    unfold glob_raw. apply filter_permutation, Permutation_map. exact Hp. }
  assert (Hopen : forall name, In name (enumerate_raw d) ->
                    open_rb d name = open_rb d' name).
  { intros name Hin. apply enumerate_raw_listed in Hin.
    apply in_map_iff in Hin. destruct Hin as ((n & c) & Hn & Hin).
    simpl in Hn. subst n.
    rewrite (open_rb_entry d name c Hnd Hin).
    symmetry. apply open_rb_entry; [exact Hnd' |].
    apply (Permutation_in _ Hp). exact Hin. }
  split.
  - apply read_same_files; assumption.
  - apply read_centre_slice_same_files; assumption.
Qed.

Lemma loaders_ignore_listing_order_witness :
  read (reader_of (scan 4)) four_frames None uint16 false
  = read (reader_of (scan 4)) (rev four_frames) None uint16 false.
Proof.
  apply (loaders_ignore_listing_order (reader_of (scan 4)) four_frames
           (rev four_frames) None uint16 false).
  - vm_compute. repeat constructor; simpl; intuition discriminate.
  - apply Permutation_rev.
Defined.

Lemma with_content_names (d : directory) (name : string)
    (content : list Byte.byte) :
  map fst (with_content d name content) = map fst d.
Proof.
  unfold with_content. induction d as [| e d IH]; simpl; [reflexivity |].
  rewrite IH. destruct (String.eqb (fst e) name); reflexivity.
Qed.

Lemma open_rb_with_content_other (d : directory) (name other : string)
    (content : list Byte.byte) :
  other <> name ->
  open_rb (with_content d name content) other = open_rb d other.
Proof.
  intros Hne. unfold open_rb, with_content.
  induction d as [| e d IH]; simpl; [reflexivity |].
  destruct (String.eqb_spec (fst e) name) as [E | E]; simpl.
  - destruct (String.eqb_spec (fst e) other) as [E' | E']; [congruence |].
    exact IH.
  - destruct (String.eqb (fst e) other); [reflexivity | exact IH].
Qed.

(** The file that sorts last is dropped before anything is opened: its
    content has no influence on either loader (file names distinct). *)
Theorem loaders_never_read_last_file (self : DiondoDataReader) (d : directory)
    (a : option selection) (dt : dtype) (fread : bool) (last_name : string)
    (content : list Byte.byte) :
  NoDup (map fst d) ->
  sorted (glob_raw d) = enumerate_raw d ++ [last_name] ->
  read self (with_content d last_name content) a dt fread
  = read self d a dt fread /\
  read_centre_slice self (with_content d last_name content) a dt
  = read_centre_slice self d a dt.
Proof.
  intros Hnd Hlast.
  assert (Henum : enumerate_raw (with_content d last_name content)
                  = enumerate_raw d).
  { unfold enumerate_raw, glob_raw. rewrite with_content_names. reflexivity. }
  assert (Hout : ~ In last_name (enumerate_raw d)).
  { assert (Hs : NoDup (sorted (glob_raw d))).
    { eapply Permutation_NoDup; [apply sorted_permutation |].
      unfold glob_raw. apply NoDup_filter. exact Hnd. }
    rewrite Hlast in Hs. apply NoDup_remove_2 in Hs.
    rewrite app_nil_r in Hs. exact Hs. }
  assert (Hopen : forall name,
            In name (enumerate_raw (with_content d last_name content)) ->
            open_rb (with_content d last_name content) name = open_rb d name).
  { intros name Hin. rewrite Henum in Hin.
    apply open_rb_with_content_other. intros E. subst name.
    apply Hout. exact Hin. }
  split.
  - apply read_same_files; assumption.
  - apply read_centre_slice_same_files; assumption.
Qed.

Lemma loaders_never_read_last_file_witness :
  sorted (glob_raw four_frames) = enumerate_raw four_frames ++ ["p0003.raw"%string] /\
  read (reader_of (scan 4)) (with_content four_frames "p0003.raw" []) None
    uint16 false
  = read (reader_of (scan 4)) four_frames None uint16 false.
Proof.
  split; [reflexivity |].
  apply (loaders_never_read_last_file (reader_of (scan 4)) four_frames None
           uint16 false "p0003.raw" []).
  - vm_compute. repeat constructor; simpl; intuition discriminate.
  - reflexivity.
Defined.

(** ** More on the central-slice loader *)


(** A row assignment succeeds exactly for an index in range and a vector
    of the row's length or of length one. *)
Lemma np_setitem_row_written (a a' : ndarray Z) (n h k : nat) (row : list Z) :
  shape a = [n; h] ->
  np_setitem a k (np_array1 row) = Ok a' ->
  (k < n)%nat /\ (length row = h \/ length row = 1%nat) /\
  a' = mk_ndarray [n; h]
         (firstn (k * h) (data a) ++ row_written h row
          ++ skipn ((k + 1) * h) (data a)).
Proof.
  intros Ha. unfold np_setitem, row_written. rewrite Ha.
  destruct (Nat.leb_spec n k) as [Hle | Hlt]; [discriminate |].
  simpl size_of. rewrite Nat.mul_1_r. simpl shape. simpl data.
  destruct (shape_eqb [length row] [h]) eqn:Hs.
  - apply shape_eqb_eq in Hs. injection Hs as Hs.
    intros H. injection H as <-. rewrite Hs, Nat.eqb_refl.
    split; [exact Hlt |]. split; [left; reflexivity | reflexivity].
  - destruct row as [| x [| y row]]; simpl; try discriminate.
    intros H. injection H as <-.
    split; [exact Hlt |]. split; [right; reflexivity |].
    destruct h as [| [| h']]; reflexivity.
Qed.

Lemma np_setitem_row_accepted (a : ndarray Z) (n h k : nat) (row : list Z) :
  shape a = [n; h] -> (k < n)%nat -> length row = h \/ length row = 1%nat ->
  exists a', np_setitem a k (np_array1 row) = Ok a'.
Proof.
  intros Ha Hk Hr. unfold np_setitem. rewrite Ha.
  replace (n <=? k)%nat with false by (symmetry; apply Nat.leb_gt; exact Hk).
  simpl shape. simpl data.
  destruct (shape_eqb [length row] [h]) eqn:Hs; [eexists; reflexivity |].
  destruct Hr as [Hr | Hr].
  - rewrite Hr, shape_eqb_refl in Hs. discriminate Hs.
  - destruct row as [| x [| y row]]; try discriminate Hr.
    eexists. reflexivity.
Qed.


Lemma np_setitem_row_out_of_range (a : ndarray Z) (n h k : nat) (v : ndarray Z) :
  shape a = [n; h] -> (n <= k)%nat -> np_setitem a k v = Raise IndexError.
Proof.
  intros Ha Hk. unfold np_setitem. rewrite Ha.
  replace (n <=? k)%nat with true by (symmetry; apply Nat.leb_le; exact Hk).
  reflexivity.
Qed.



(** With more files than rows, the loop fails with [IndexError] once every
    row is written, the files holding their scanline. *)
Lemma centre_loop_overflows (d : directory) (dt : dtype) (offset h n : nat)
    (files : list string) :
  (forall name content,
     In name files -> open_rb d name = Ok content ->
     holds_scanline dt offset h content) ->
  (forall name, In name files -> In name (map fst d)) ->
  forall (i : nat) (cs : ndarray Z),
    shape cs = [n; h] -> (i <= n)%nat -> (n < i + length files)%nat ->
    centre_loop d dt offset h i files cs = Raise IndexError.
Proof.
  induction files as [| f files IH]; intros Hhold Hlisted i cs Hsh Hin Hi.
  - simpl in Hi. lia.
  - simpl.
    destruct (open_rb_listed d f (Hlisted f (or_introl eq_refl))) as (c & Hc).
    rewrite Hc. simpl bind at 1.
    destruct (Nat.le_gt_cases n i) as [Hfull | Hroom].
    + rewrite (np_setitem_row_out_of_range cs n h i _ Hsh Hfull). reflexivity.
    + pose proof (Hhold f c (or_introl eq_refl) Hc) as Hf.
      destruct (fromfile_scanline dt offset h c Hf) as (_ & Hlen).
      destruct (np_setitem_row_accepted cs n h i _ Hsh Hroom (or_introl Hlen))
        as (cs' & Hset).
      rewrite Hset. simpl bind at 1.
      destruct (np_setitem_row_written _ _ n h i _ Hsh Hset) as (_ & _ & E).
      apply IH.
      * intros name c' Hname. apply Hhold. right. exact Hname.
      * intros name Hname. apply Hlisted. right. exact Hname.
      * rewrite E. reflexivity.
      * lia.
      * simpl in Hi. lia.
Qed.

(** [read_centre_slice] on a reader that has been set up, in terms of the
    metadata. *)
Lemma read_centre_slice_unfold (m : ScanMetadata) (self : DiondoDataReader)
    (d : directory) (a : option selection) (dt : dtype) :
  _setup_geometry m = Ok self ->
  read_centre_slice self d a dt
  = (filled <- centre_loop d dt
                 (Z.to_nat (num_pixels_v m / 2 * num_pixels_h m
                            * Z.of_nat (itemsize dt)))
                 (Z.to_nat (num_pixels_h m)) 0 (enumerate_raw d)
                 (np_zeros [Z.to_nat (num_projections m);
                            Z.to_nat (num_pixels_h m)]) ;;
     Ok (mk_data (astype_float32 filled) (get_slice_centre (full_geometry self)))).
Proof.
  intros Hsetup.
  pose proof (setup_geometry_angle_count m self Hsetup) as Hcount.
  apply setup_geometry_inv in Hsetup.
  destruct Hsetup as (_ & _ & _ & _ & _ & _ & _ & Hpix).
  unfold read_centre_slice, geometry_shape.
  rewrite Hpix, Nat2Z.id, Hcount. reflexivity.
Qed.

(** With more RAW files remaining than the scan has projections, the
    central-slice loader raises [IndexError] (the files holding their
    scanline): its buffer has one row per projection. *)
Theorem read_centre_slice_too_many_files (m : ScanMetadata)
    (self : DiondoDataReader) (d : directory) (a : option selection)
    (dt : dtype) :
  _setup_geometry m = Ok self ->
  (Z.to_nat (num_projections m) < length (enumerate_raw d))%nat ->
  (forall name content,
     In name (enumerate_raw d) -> open_rb d name = Ok content ->
     holds_scanline dt
       (Z.to_nat (num_pixels_v m / 2 * num_pixels_h m * Z.of_nat (itemsize dt)))
       (Z.to_nat (num_pixels_h m)) content) ->
  read_centre_slice self d a dt = Raise IndexError.
Proof.
  intros Hsetup Hmany Hhold.
  rewrite (read_centre_slice_unfold m self d a dt Hsetup).
  destruct (np_zeros_rows (Z.to_nat (num_projections m))
              (Z.to_nat (num_pixels_h m))) as (Hzs & _).
  rewrite (centre_loop_overflows d dt _ _ (Z.to_nat (num_projections m))
             (enumerate_raw d) Hhold (enumerate_raw_listed d) 0 _ Hzs);
    [reflexivity | lia | simpl; exact Hmany].
Qed.

Lemma read_centre_slice_too_many_files_witness :
  _setup_geometry (scan 2) = Ok (reader_of (scan 2)) /\
  read_centre_slice (reader_of (scan 2)) four_frames None uint16
  = Raise IndexError.
Proof.
  split; [reflexivity |].
  apply (read_centre_slice_too_many_files (scan 2) (reader_of (scan 2))
           four_frames None uint16 eq_refl).
  - vm_compute. lia.
  - intros name content Hin Hopen. vm_compute in Hin.
    destruct Hin as [<- | [<- | [<- | []]]];
      vm_compute in Hopen; injection Hopen as <-; vm_compute; lia.
Defined.



(** ** The central slice and the full read *)

Lemma items_consumed (sz count : nat) :
  forall bs, (length (items sz count bs) * sz <= length bs)%nat.
Proof.
  induction count as [| c IH]; intros bs; simpl; [lia |].
  destruct (Nat.ltb_spec (length bs) sz) as [Hshort | Hlong]; simpl; [lia |].
  specialize (IH (skipn sz bs)). rewrite length_skipn in IH. lia.
Qed.

Lemma items_skipn (sz : nat) (k : nat) :
  forall count bs,
    (k <= length (items sz count bs))%nat ->
    skipn k (items sz count bs) = items sz (count - k) (skipn (k * sz) bs).
Proof.
  induction k as [| k IH]; intros count bs Hk.
  - simpl. rewrite Nat.sub_0_r. reflexivity.
  - destruct count as [| c]; [simpl in Hk; lia |].
    simpl in Hk |- *.
    destruct (Nat.ltb_spec (length bs) sz) as [Hshort | Hlong];
      [simpl in Hk; lia |].
    simpl in Hk. rewrite IH by lia.
    rewrite skipn_skipn. f_equal. f_equal. lia.
Qed.

Lemma items_firstn (sz : nat) (h : nat) :
  forall count bs,
    (h <= length (items sz count bs))%nat ->
    firstn h (items sz count bs) = items sz h bs.
Proof.
  induction h as [| h IH]; intros count bs Hh; [reflexivity |].
  destruct count as [| c]; [simpl in Hh; lia |].
  simpl in Hh |- *.
  destruct (Nat.ltb_spec (length bs) sz) as [Hshort | Hlong];
    [simpl in Hh; lia |].
  simpl in Hh. f_equal. apply IH. lia.
Qed.

(** In a file that holds a frame, the scanline found by seeking is row
    [row] of the frame read as a whole. *)
Lemma frame_row_by_seek (dt : dtype) (rows cols row : nat)
    (content : list Byte.byte) :
  holds_frame dt rows cols content -> (row < rows)%nat ->
  holds_scanline dt (row * cols * itemsize dt) cols content /\
  np_fromfile (skipn (row * cols * itemsize dt) content) dt (Some cols)
  = firstn cols (skipn (row * cols) (np_fromfile content dt None)).
Proof.
  unfold holds_frame, holds_scanline, np_fromfile.
  rewrite length_map. intros Hframe Hrow.
  pose proof (items_consumed (itemsize dt) (length content) content) as Hc.
  rewrite Hframe in Hc.
  assert (E : exists t, rows = (row + 1 + t)%nat)
    by (exists (rows - row - 1)%nat; lia).
  destruct E as (t & ->).
  split; [nia |].
  rewrite skipn_map, firstn_map. f_equal.
  rewrite items_skipn by (rewrite Hframe; nia).
  rewrite items_firstn; [reflexivity |].
  rewrite <- items_skipn by (rewrite Hframe; nia).
  rewrite length_skipn, Hframe. nia.
Qed.

(** The central slice is the middle row of the full read: on a directory
    that both loaders accept, row [i] of [read_centre_slice] is row
    [num_pixels_v // 2] of frame [i] of [read(angles=None)]. *)
Theorem centre_slice_is_middle_row (m : ScanMetadata) (self : DiondoDataReader)
    (d : directory) (dt : dtype) (fread : bool) (full centre : AcquisitionData)
    (i : nat) :
  _setup_geometry m = Ok self ->
  read self d None dt fread = Ok full ->
  read_centre_slice self d None dt = Ok centre ->
  (i < length (enumerate_raw d))%nat ->
  slot (array centre) i
  = firstn (Z.to_nat (num_pixels_h m))
      (skipn (Z.to_nat (num_pixels_v m / 2) * Z.to_nat (num_pixels_h m))
         (slot (array full) i)).
Proof.
  intros Hsetup Hfull Hcentre Hi.
  pose proof (read_centre_slice_unfold m self d None dt Hsetup) as Hun.
  apply setup_geometry_inv in Hsetup.
  destruct Hsetup as (_ & Hh & Hv & Hmeta & _).
  destruct (nth_error (enumerate_raw d) i) as [name |] eqn:Hname;
    [| apply nth_error_None in Hname; lia].
  (* the frame of the full read *)
  apply read_Ok_inv in Hfull.
  destruct Hfull as (ix & selected & frames & subset & _ & Hix & Hsel & Hfr
                     & _ & ->).
  subst ix. rewrite mapM_getitem_arange in Hsel. injection Hsel as <-.
  rewrite Hmeta in Hfr.
  destruct (mapM_nth_error _ _ _ _ _ Hfr Hname) as (f & Hkf & Hf).
  apply read_single_inv in Hf. destruct Hf as (content & Hopen & Hframe & Hfeq).
  rewrite Hmeta. simpl array.
  rewrite (slot_stacked _ _ _ _ _ (read_frames_shape _ _ _ _ _ _ Hfr) Hkf), Hfeq.
  simpl data.
  (* the row of the central slice *)
  rewrite Hun in Hcentre. bind_inv Hcentre filled Hloop.
  injection Hcentre as <-.
  destruct (np_zeros_rows (Z.to_nat (num_projections m))
              (Z.to_nat (num_pixels_h m))) as (Hzs & Hzl).
  destruct (centre_loop_inv _ _ _ _ _ _ _ _ _ Hzs Hzl Hloop)
    as (Hsh & _ & _ & _ & Hrows).
  destruct (Hrows i name Hname) as (content' & Hopen' & Hrow).
  rewrite Hopen in Hopen'. injection Hopen' as <-.
  simpl array. rewrite (slot_astype_rows _ _ _ _ Hsh).
  assert (Hoff : Z.to_nat (num_pixels_v m / 2 * num_pixels_h m
                           * Z.of_nat (itemsize dt))
                 = (Z.to_nat (num_pixels_v m / 2) * Z.to_nat (num_pixels_h m)
                    * itemsize dt)%nat).
  { assert (0 <= num_pixels_v m / 2) by (apply Z.div_pos; lia).
    rewrite !Z2Nat.inj_mul, Nat2Z.id by lia. reflexivity. }
  rewrite Hoff in Hrow.
  assert (Hmid : (Z.to_nat (num_pixels_v m / 2) < Z.to_nat (num_pixels_v m))%nat).
  { assert (num_pixels_v m / 2 < num_pixels_v m) by (apply Z.div_lt; lia).
    assert (0 <= num_pixels_v m / 2) by (apply Z.div_pos; lia).
    lia. }
  destruct (frame_row_by_seek dt _ _ _ content Hframe Hmid) as (Hscan & Heq).
  simpl in Hrow. rewrite (Hrow Hscan), Heq.
  rewrite skipn_map, firstn_map. reflexivity.
Qed.

Lemma centre_slice_is_middle_row_witness :
  _setup_geometry (scan 4) = Ok (reader_of (scan 4)) /\
  exists full centre,
    read (reader_of (scan 4)) four_frames None uint16 true = Ok full /\
    read_centre_slice (reader_of (scan 4)) four_frames None uint16 = Ok centre /\
    slot (array centre) 1 = firstn 2 (skipn 2 (slot (array full) 1)).
Proof.
  split; [reflexivity |].
  eexists. eexists.
  split; [vm_compute; reflexivity |]. split; [vm_compute; reflexivity |].
  apply (centre_slice_is_middle_row (scan 4) (reader_of (scan 4)) four_frames
           uint16 true _ _ 1 eq_refl); [reflexivity | reflexivity |].
  vm_compute. lia.
Defined.

(** ** The float32 cast *)

Lemma le_unsigned_range (bs : list Byte.byte) :
  0 <= le_unsigned bs < 256 ^ Z.of_nat (length bs).
Proof.
  induction bs as [| b bs IH]; [simpl; lia |].
  cbn [le_unsigned length]. rewrite Nat2Z.inj_succ, Z.pow_succ_r by lia.
  pose proof (Byte.to_N_bounded b) as Hb.
  assert (0 <= Z.of_N (Byte.to_N b) <= 255) by lia.
  nia.
Qed.

Lemma items_item_length (sz count : nat) :
  forall bs, Forall (fun c => length c = sz) (items sz count bs).
Proof.
  induction count as [| c IH]; intros bs; simpl; [constructor |].
  destruct (Nat.ltb_spec (length bs) sz) as [Hshort | Hlong]; constructor.
  - rewrite length_firstn. lia.
  - apply IH.
Qed.

(** The elements read with a dtype of at most 16 bits fit in 17 bits. *)
Lemma np_fromfile_narrow_range (dt : dtype) (rest : list Byte.byte)
    (count : option nat) :
  narrow dt = true ->
  Forall (fun z => -32768 <= z < 65536) (np_fromfile rest dt count).
Proof.
  intros Hn. unfold np_fromfile. apply Forall_map.
  eapply Forall_impl; [| apply items_item_length].
  intros c Hc. unfold decode.
  pose proof (le_unsigned_range c) as Hr. rewrite Hc in Hr.
  destruct dt; try discriminate Hn; simpl in Hr |- *;
    change (256 ^ 1) with 256 in Hr; change (256 ^ 2) with 65536 in Hr;
    try lia;
    match goal with
    | |- context [?a <=? ?b] => destruct (Z.leb_spec a b)
    end; lia.
Qed.

Lemma holds_from_spec (p : Z -> bool) (n : nat) :
  forall z, holds_from p z n = true ->
  forall x, z <= x < z + Z.of_nat n -> p x = true.
Proof.
  induction n as [| n IH]; intros z H x Hx; [lia |].
  cbn [holds_from] in H. apply andb_true_iff in H. destruct H as [Hz Hrest].
  destruct (Z.eq_dec x z) as [-> | Hne]; [exact Hz |].
  apply (IH (z + 1) Hrest). lia.
Qed.

(** Every integer of 17 bits goes through float32 unchanged (checked by
    running the conversion on each of them). *)
Lemma float32_exact_on_narrow_range :
  holds_from float32_exact (-32768) (3 * 128 * 256) = true.
Proof. vm_compute. reflexivity. Qed.

Lemma float32_round_trip (z : Z) :
  -32768 <= z < 65536 -> float32_to_Z (float32_of_Z z) = Some z.
Proof.
  intros Hz.
  assert (H : float32_exact z = true).
  { apply (holds_from_spec _ _ _ float32_exact_on_narrow_range).
    change (3 * 128 * 256)%nat with (Z.to_nat 98304). lia. }
  unfold float32_exact in H.
  destruct (float32_to_Z (float32_of_Z z)) as [z' |]; [| discriminate H].
  f_equal. apply Z.eqb_eq. exact H.
Qed.

(** The cast to float32 loses nothing for dtypes of at most 16 bits (the
    default uint16 among them): from frame [k] of a volume that [read]
    returned, the integer samples of the file it was read from are
    recovered exactly. *)
Theorem read_keeps_narrow_samples (self : DiondoDataReader) (d : directory)
    (a : option selection) (dt : dtype) (fread : bool) (indices : list Z)
    (out : AcquisitionData) (k : nat) (i : Z) :
  narrow dt = true ->
  match a with
  | None => indices = np_arange (Z.of_nat (length (enumerate_raw d)))
  | Some _ => set_angles self a = Ok (Some indices)
  end ->
  read self d a dt fread = Ok out ->
  nth_error indices k = Some i ->
  exists raw_file content,
    getitem (enumerate_raw d) i = Ok raw_file /\
    open_rb d raw_file = Ok content /\
    map float32_to_Z (slot (array out) k)
    = map Some (np_fromfile content dt None).
Proof.
  intros Hn Hres Hread Hk. apply read_Ok_inv in Hread.
  destruct Hread as (ix & selected & frames & subset & _ & Hix & Hsel & Hfr
                     & _ & ->).
  assert (E : ix = indices).
  { destruct a; [rewrite Hres in Hix; congruence | congruence]. }
  subst ix.
  destruct (mapM_nth_error _ _ _ _ _ Hsel Hk) as (raw_file & Hk1 & Hget).
  destruct (mapM_nth_error _ _ _ _ _ Hfr Hk1) as (f & Hk2 & Hf).
  pose proof (read_frames_shape _ _ _ _ _ _ Hfr) as Hshape.
  apply read_single_inv in Hf. destruct Hf as (content & Hopen & _ & Hfeq).
  exists raw_file, content.
  split; [exact Hget |]. split; [exact Hopen |].
  simpl array. rewrite (slot_stacked _ _ _ _ _ Hshape Hk2), Hfeq. simpl data.
  rewrite map_map. apply map_ext_in. intros z Hz.
  apply float32_round_trip.
  pose proof (np_fromfile_narrow_range dt content None Hn) as Hrange.
  rewrite Forall_forall in Hrange. apply Hrange. exact Hz.
Qed.

Lemma read_keeps_narrow_samples_witness :
  exists out,
    read (reader_of (scan 4)) four_frames (Some (SelInt 1)) uint16 false = Ok out /\
    map float32_to_Z (slot (array out) 0) = [Some 20; Some 21; Some 22; Some 23].
Proof.
  eexists. split; [vm_compute; reflexivity |].
  destruct (read_keeps_narrow_samples (reader_of (scan 4)) four_frames
              (Some (SelInt 1)) uint16 false [1] _ 0 1 eq_refl eq_refl eq_refl
              eq_refl) as (raw_file & content & Hget & Hopen & Hvals).
  vm_compute in Hget. injection Hget as <-.
  vm_compute in Hopen. injection Hopen as <-.
  exact Hvals.
Defined.
